(** * BillEase Assistant: the Streamlit script [main.py] as a state machine

    [main.py] is a Streamlit script: the framework re-executes it from top to
    bottom on every user interaction (a "rerun").  What survives from one
    rerun to the next is [st.session_state] and the machine's file system;
    every module-level variable of the script is rebound from scratch.

    One rerun is embedded as a computation in a state-and-exception monad.
    The state holds the file system, the session state, the variables of the
    script that the claims talk about, and a log of the calls made to the
    outside (remote services, file system, chat widgets).  The outside world
    answers through oracles: what the hosted vision model returns, what the
    agent returns, which file the uploader widget holds. *)

From stdpp Require Import base option list gmap strings.

(** ** Python values the script handles *)

(** The object [st.file_uploader] returns: a named in-memory file. *)
Record UploadedFile := mkUploadedFile {
  uf_name : string;
  uf_value : string           (* uploaded_file.getvalue() *)
}.

#[global] Instance UploadedFile_eq_dec : EqDecision UploadedFile.
Proof. solve_decision. Defined.

Inductive Role := user | assistant.

#[global] Instance Role_eq_dec : EqDecision Role.
Proof. solve_decision. Defined.

(** A chat message is a dict with keys "role", "content" and, optionally,
    "image".  [image = None] is a dict without the key, [Some None] is
    ["image": None], [Some (Some f)] is ["image": f]. *)
Record Message := mkMessage {
  role : Role;
  content : string;
  image : option (option UploadedFile)
}.

#[global] Instance Message_eq_dec : EqDecision Message.
Proof. solve_decision. Defined.

(** The [CodeAgent] object; what [agent.run] answers is an oracle. *)
Inductive Agent := CodeAgent.

(** ** Calls to the outside, in the order the script makes them *)

Inductive Event :=
| EvMkTemp (p : string)              (* tempfile.NamedTemporaryFile(delete=False) *)
| EvAnalyze (p : string)             (* the hosted vision model, called on a path *)
| EvAgentRun (q : string)            (* agent.run(q) *)
| EvUnlink (p : string)              (* os.unlink(p) *)
| EvChat (r : Role)                  (* with st.chat_message(r) *)
| EvMarkdown (t : string)            (* st.markdown(t) *)
| EvImage (f : UploadedFile)         (* st.image(f) *)
| EvError (t : string).              (* st.error(t) *)

#[global] Instance Event_eq_dec : EqDecision Event.
Proof. solve_decision. Defined.

Definition is_analyze (e : Event) : bool :=
  match e with EvAnalyze _ => true | _ => false end.
Definition is_agent_run (e : Event) : bool :=
  match e with EvAgentRun _ => true | _ => false end.
Definition is_unlink (e : Event) : bool :=
  match e with EvUnlink _ => true | _ => false end.
Definition is_mktemp (e : Event) : bool :=
  match e with EvMkTemp _ => true | _ => false end.
Definition is_error (e : Event) : bool :=
  match e with EvError _ => true | _ => false end.
Definition is_chat (e : Event) : bool :=
  match e with EvChat _ => true | _ => false end.

(** Number of events of one kind in a log. *)
Definition count (k : Event → bool) (l : list Event) : nat :=
  length (List.filter k l).

(** ** Outcomes and oracles *)

(** A Python call returns a value or raises; [e] is [str(e)] of an exception
    deriving from [Exception], the class both [except] clauses of the script
    catch. *)
Inductive Result (A : Type) :=
| Ret (a : A)
| Raise (e : string).
Arguments Ret {A} a.
Arguments Raise {A} e.

(** The remote services.  [vision k p] is what the body of the [try] in
    [analyze_image] does on the [k]-th call of the session ([Tool.from_space]
    followed by the call of the tool on [handle_file(p)]): the text of the
    model, or an exception.  [agent_run k q] is the [k]-th [agent.run(q)]. *)
Record Env := mkEnv {
  vision : nat → string → Result string;
  agent_run : nat → string → Result string
}.

(** What one rerun receives: the widget values, whether [create_agent()]
    succeeds, and the random part of the name [NamedTemporaryFile] picks. *)
Record Inputs := mkInputs {
  uploaded_file : option UploadedFile;   (* st.file_uploader(...) *)
  prompt : option string;                (* st.chat_input(...) *)
  create_agent : Result Agent;
  tmp_rand : string
}.

(** ** State *)

Record State := mkState {
  fs : gmap string string;               (* files on disk: path to contents *)
  messages : option (list Message);      (* st.session_state.messages; None: key absent *)
  ss_image_analyzed : option bool;       (* st.session_state.image_analyzed; None: key absent *)
  log : list Event;
  (* module-level variables of the script *)
  image_path : option string;            (* None or a path *)
  image_analyzed : bool;
  image_analysis : option string         (* None: the name is unbound *)
}.

Definition set_fs (x : gmap string string) (s : State) : State :=
  mkState x (messages s) (ss_image_analyzed s) (log s)
          (image_path s) (image_analyzed s) (image_analysis s).
Definition set_messages (x : option (list Message)) (s : State) : State :=
  mkState (fs s) x (ss_image_analyzed s) (log s)
          (image_path s) (image_analyzed s) (image_analysis s).
Definition set_ss_image_analyzed (x : option bool) (s : State) : State :=
  mkState (fs s) (messages s) x (log s)
          (image_path s) (image_analyzed s) (image_analysis s).
Definition set_log (x : list Event) (s : State) : State :=
  mkState (fs s) (messages s) (ss_image_analyzed s) x
          (image_path s) (image_analyzed s) (image_analysis s).
Definition set_image_path (x : option string) (s : State) : State :=
  mkState (fs s) (messages s) (ss_image_analyzed s) (log s)
          x (image_analyzed s) (image_analysis s).
Definition set_image_analyzed (x : bool) (s : State) : State :=
  mkState (fs s) (messages s) (ss_image_analyzed s) (log s)
          (image_path s) x (image_analysis s).
Definition set_image_analysis (x : option string) (s : State) : State :=
  mkState (fs s) (messages s) (ss_image_analyzed s) (log s)
          (image_path s) (image_analyzed s) x.

(** The conversation store as a list: an absent key reads as no message. *)
Definition msgs (s : State) : list Message := default [] (messages s).

(** ** The monad: state passing with exceptions

    As in Python, a raised exception keeps the changes made so far. *)
Definition M (A : Type) : Type := State → Result A * State.

#[global] Instance M_ret : MRet M := λ A a s, (Ret a, s).
#[global] Instance M_bind : MBind M := λ A B f m s,
  match m s with
  | (Ret a, s') => f a s'
  | (Raise e, s') => (Raise e, s')
  end.

Definition gets {A} (f : State → A) : M A := λ s, (Ret (f s), s).
Definition modify (f : State → State) : M unit := λ s, (Ret tt, f s).
Definition raise {A} (e : string) : M A := λ s, (Raise e, s).

(** [try: m except Exception as e: h e] *)
Definition try_except {A} (m : M A) (h : string → M A) : M A := λ s,
  match m s with
  | (Ret a, s') => (Ret a, s')
  | (Raise e, s') => h e s'
  end.

(** Lift an oracle answer into the monad. *)
Definition of_result {A} (r : Result A) : M A := λ s, (r, s).

Definition emit (e : Event) : M unit := modify (λ s, set_log (log s ++ [e]) s).

(** [st.session_state.messages.append(m)] *)
Definition append_message (m : Message) : M unit :=
  modify (λ s, set_messages (Some (msgs s ++ [m])) s).

(** ** String constants of the script *)

Definition nl : string := String (Ascii.ascii_of_nat 10) EmptyString.

(** The reply the vision model is told to give for an unreadable image. *)
Definition SENTINEL : string := "Please upload a clearer image".
Definition ANALYZED_PREFIX : string := "I've analyzed the uploaded image:" +:+ nl +:+ nl.
Definition ANALYZE_ERROR : string := "Error analyzing image: ".
Definition AGENT_ERROR : string := "Error creating agent: ".
Definition APOLOGY : string :=
  "Sorry, I'm having trouble initializing. Please try again later.".
Definition RUN_ERROR : string := "Sorry, I encountered an error: ".

(** The context of a query about an uploaded image (both f-strings of the
    text block are the same). *)
Definition image_context (image_analysis prompt : string) : string :=
  "The user has uploaded an image. Image analysis: " +:+ image_analysis
  +:+ ". User query: " +:+ prompt.

(** The f-string passed to [agent.run]: every line of the triple-quoted text
    carries the 24 blanks of the source's indentation. *)
Definition ind : string := "                        ".
Definition prompt_head : string :=
  nl +:+ ind +:+ "You are a helpful assistant who answers queries about Billease, a fintech company in the Philippines."
  +:+ nl +:+ ind
  +:+ nl +:+ ind +:+ "Context information:"
  +:+ nl +:+ ind +:+ "- BillEase is a buy now, pay later app in the Philippines"
  +:+ nl +:+ ind +:+ "- Users can shop online, pay bills, and get cash loans"
  +:+ nl +:+ ind +:+ "- More info at: https://billease.ph/faq/"
  +:+ nl +:+ ind
  +:+ nl +:+ ind +:+ "User query: ".
Definition prompt_tail : string := nl +:+ ind.
Definition agent_prompt (context : string) : string :=
  prompt_head +:+ context +:+ prompt_tail.

(** Python truthiness of a string that may be [None] or unbound. *)
Definition truthy (o : option string) : bool :=
  match o with
  | Some s => negb (bool_decide (s = ""))
  | None => false
  end.

(** ** The file system calls *)

(** [tempfile.NamedTemporaryFile(delete=False, suffix=...)]: a new empty file
    in the temp directory; [rand] is the random part of its name. *)
Definition tmp_name (rand suffix : string) : string :=
  "/tmp/tmp" +:+ rand +:+ suffix.

Definition named_temporary_file (rand suffix : string) : M string :=
  let p := tmp_name rand suffix in
  emit (EvMkTemp p) ;;
  modify (λ s, set_fs (<[p := ""]> (fs s)) s) ;;
  mret p.

(** [tmp_file.write(data)] on the file just created. *)
Definition file_write (p data : string) : M unit :=
  modify (λ s, set_fs (<[p := data]> (fs s)) s).

Definition os_path_exists (p : string) : M bool :=
  gets (λ s, bool_decide (is_Some (fs s !! p))).

(** [os.unlink(p)] raises [FileNotFoundError] when [p] does not exist. *)
Definition os_unlink (p : string) : M unit :=
  emit (EvUnlink p) ;;
  ex ← os_path_exists p ;
  if (ex : bool) then modify (λ s, set_fs (delete p (fs s)) s)
  else raise ("[Errno 2] No such file or directory: '" +:+ p +:+ "'").

(** [open(p, "rb")] followed by [read()]: the bytes of the file, or
    [FileNotFoundError].  The file system of the model holds regular files
    only, so a path that is not in it does not exist; the text of the error
    is Python's for a path that [repr] shows unchanged between single quotes,
    as it does every name [tempfile] makes up. *)
Definition read_file (p : string) : M string := λ s,
  match fs s !! p with
  | Some d => (Ret d, s)
  | None => (Raise ("[Errno 2] No such file or directory: '" +:+ p +:+ "'"), s)
  end.

(** ** [encode_image_to_base64] (lines 61-68)

    [base64.b64encode(...).decode()] belongs to the Python library; it is a
    total function from bytes to text and stays a parameter. *)
Section Encoding.

Variable b64encode : string → string.

Definition encode_image_to_base64 (image_path : string) : M string :=
  try_except
    (d ← read_file image_path ;
     mret (b64encode d))
    (λ e, mret ("[Image could not be encoded: " +:+ e +:+ "]")).

End Encoding.

Section Script.

Variable env : Env.

(** ** [analyze_image] (lines 16-54)

    The body of the [try] is one oracle call; [except Exception as e] turns
    an exception into the returned string. *)
Definition analyze_image (image_path : string) : M string :=
  try_except
    (k ← gets (λ s, count is_analyze (log s)) ;
     emit (EvAnalyze image_path) ;;
     of_result (vision env k image_path))
    (λ e, mret (ANALYZE_ERROR +:+ e)).

(** [agent.run(q)] *)
Definition run_agent (a : Agent) (q : string) : M string :=
  k ← gets (λ s, count is_agent_run (log s)) ;
  emit (EvAgentRun q) ;;
  of_result (agent_run env k q).

(** ** Lines 13-14: the conversation store is created on the first run *)
Definition init_messages : M unit :=
  m ← gets messages ;
  match m with
  | None => modify (set_messages (Some []))
  | Some _ => mret tt
  end.

(** ** Lines 75-79: the agent, or [None] when its construction raises *)
Definition construct_agent (i : Inputs) : M (option Agent) :=
  try_except
    (a ← of_result (create_agent i) ; mret (Some a))
    (λ e, emit (EvError (AGENT_ERROR +:+ e)) ;; mret None).

(** ** Lines 81-85: the stored messages are drawn again *)
Definition render_message (m : Message) : M unit :=
  emit (EvChat (role m)) ;;
  emit (EvMarkdown (content m)) ;;
  match image m with
  | Some (Some f) => emit (EvImage f)      (* key present and not None *)
  | _ => mret tt
  end.

Fixpoint for_each {A} (l : list A) (body : A → M unit) : M unit :=
  match l with
  | [] => mret tt
  | x :: l' => body x ;; for_each l' body
  end.

Definition render_history : M unit :=
  l ← gets msgs ;
  for_each l render_message.

(** The string a name holds, for a name that was tested to hold one. *)
Definition the (o : option string) : string := default "" o.

Definition is_some {A} (o : option A) : bool :=
  match o with Some _ => true | None => false end.

(** ** Lines 95-125: the upload block

    [image_path] and [image_analyzed] are rebound on lines 96-97, right before
    the guard of line 99 reads [image_analyzed]. *)

(** Lines 108-125: the [try] of the analysis and its [except]. *)
Definition analysis_step (f : UploadedFile) : M unit :=
  try_except
    (append_message (mkMessage user "Image uploaded" (Some (Some f))) ;;
     ip ← gets image_path ;
     r ← analyze_image (the ip) ;
     modify (set_image_analysis (Some r)) ;;
     emit (EvChat assistant) ;;
     (if bool_decide (r = SENTINEL)
      then emit (EvMarkdown r)
      else emit (EvMarkdown (ANALYZED_PREFIX +:+ r))) ;;
     append_message (mkMessage assistant r (Some None)) ;;
     modify (set_image_analyzed true) ;;
     modify (set_ss_image_analyzed (Some true)))
    (λ e, emit (EvError (ANALYZE_ERROR +:+ e))).

Definition upload_block (i : Inputs) (agent : option Agent) : M unit :=
  modify (set_image_path None) ;;
  modify (set_image_analyzed false) ;;
  analyzed ← gets image_analyzed ;
  match uploaded_file i with
  | Some f =>
      if negb analyzed then
        p ← named_temporary_file (tmp_rand i) ".jpg" ;
        file_write p (uf_value f) ;;
        modify (set_image_path (Some p)) ;;
        emit (EvImage f) ;;
        ip ← gets image_path ;
        if truthy ip && is_some agent then analysis_step f else mret tt
      else mret tt
  | None => mret tt
  end.

(** ** Lines 127-176: the text block *)

(** Lines 146-153: the context of the query. *)
Definition compose_context (prompt : string) : M string :=
  ip ← gets image_path ;
  if truthy ip then
    ia ← gets image_analysis ;
    if truthy ia then mret (image_context (the ia) prompt)
    else
      r ← analyze_image (the ip) ;
      modify (set_image_analysis (Some r)) ;;
      mret (image_context r prompt)
  else mret prompt.

(** Lines 142-168: the text of the reply. *)
Definition respond (agent : option Agent) (prompt : string) : M string :=
  match agent with
  | None => mret APOLOGY
  | Some a =>
      try_except
        (context ← compose_context prompt ;
         run_agent a (agent_prompt context))
        (λ e, mret (RUN_ERROR +:+ e))
  end.

(** Lines 170-172: the temp file is removed when it is still there. *)
Definition cleanup : M unit :=
  ip ← gets image_path ;
  ex ← (if truthy ip then os_path_exists (the ip) else mret false) ;
  if (ex : bool) then
    os_unlink (the ip) ;;
    modify (set_image_path None)
  else mret tt.

Definition text_block (i : Inputs) (agent : option Agent) : M unit :=
  if truthy (prompt i) then
    let prompt := the (prompt i) in
    append_message
      (mkMessage user prompt
         (match uploaded_file i with Some f => Some (Some f) | None => None end)) ;;
    emit (EvChat user) ;;
    emit (EvMarkdown prompt) ;;
    match uploaded_file i with Some f => emit (EvImage f) | None => mret tt end ;;
    emit (EvChat assistant) ;;
    response ← respond agent prompt ;
    cleanup ;;
    emit (EvMarkdown response) ;;
    append_message (mkMessage assistant response (Some None))
  else mret tt.

(** ** Lines 178-181: the flag of the session state is read at the very end *)
Definition sync_image_analyzed : M unit :=
  f ← gets ss_image_analyzed ;
  match f with
  | None => modify (set_ss_image_analyzed (Some false))
  | Some b => modify (set_image_analyzed b)
  end.

(** ** One rerun of the script

    The names of the script start unbound: [image_analysis] exists only
    once line 111 or line 150 has run. *)
Definition new_namespace : M unit :=
  modify (λ s, set_image_analysis None (set_image_analyzed false (set_image_path None s))).

Definition script (i : Inputs) : M unit :=
  new_namespace ;;
  init_messages ;;
  agent ← construct_agent i ;
  render_history ;;
  upload_block i agent ;;
  text_block i agent ;;
  sync_image_analyzed.

(** The state a rerun leaves, and the session a list of reruns builds. *)
Definition rerun (s : State) (i : Inputs) : State := (script i s).2.

Definition session (s : State) (runs : list Inputs) : State := foldl rerun s runs.

End Script.

(** A new browser session on a machine with the files [d]. *)
Definition initial_state (d : gmap string string) : State :=
  mkState d None None [] None false None.

(** * Scenarios

    Concrete sessions: the uploads and questions of a user, and the answers
    of the two remote services. *)

Definition car_png : UploadedFile := mkUploadedFile "car.png" "PNG".

(** What the vision model lists for a sharp picture. *)
Definition clear_text : string := "- red car" +:+ nl +:+ "- license plate ABC123".

Definition env_clear : Env :=
  mkEnv (λ _ _, Ret clear_text) (λ _ _, Ret "BillEase is a buy now, pay later app.").
Definition env_blurry : Env :=
  mkEnv (λ _ _, Ret SENTINEL) (λ _ _, Ret "BillEase is a buy now, pay later app.").
(** The vision service is unreachable. *)
Definition env_down : Env :=
  mkEnv (λ _ _, Raise "connection refused") (λ _ _, Ret "BillEase is a buy now, pay later app.").
(** The agent times out. *)
Definition env_timeout : Env :=
  mkEnv (λ _ _, Ret clear_text) (λ _ _, Raise "timeout").

(** The user drops a file into the uploader. *)
Definition upload_only : Inputs :=
  mkInputs (Some car_png) None (Ret CodeAgent) "a1b2c3d4".
(** A later rerun in which the uploader still holds that file. *)
Definition same_file_again : Inputs :=
  mkInputs (Some car_png) None (Ret CodeAgent) "e5f6g7h8".
(** A question typed while the uploader holds the file. *)
Definition ask_about_image : Inputs :=
  mkInputs (Some car_png) (Some "What is on the plate?") (Ret CodeAgent) "a1b2c3d4".
(** A second question, no new upload: the uploader still holds the file. *)
Definition ask_again : Inputs :=
  mkInputs (Some car_png) (Some "What is BillEase?") (Ret CodeAgent) "e5f6g7h8".
(** A question typed after the file was taken out of the uploader. *)
Definition ask_without_file : Inputs :=
  mkInputs None (Some "What is BillEase?") (Ret CodeAgent) "i9j0k1l2".
(** Reruns in which [create_agent()] raises. *)
Definition ask_no_agent : Inputs :=
  mkInputs None (Some "What is BillEase?") (Raise "401 Unauthorized") "m3n4o5p6".
Definition ask_image_no_agent : Inputs :=
  mkInputs (Some car_png) (Some "What is on the plate?") (Raise "401 Unauthorized") "q7r8s9t0".

(** The state of the script when line 127 is reached with a temp file. *)
Definition at_text_block : State :=
  mkState {[ "/tmp/tmpa1b2c3d4.jpg" := "PNG" ]} (Some []) None []
          (Some "/tmp/tmpa1b2c3d4.jpg") false None.

(** * What the blocks do, written out

    The result of each block as a function of the state it starts in; the
    lemmas further down show that the script computes exactly these. *)

(** What drawing one message, and a list of messages, adds to the log. *)
Definition render_events (m : Message) : list Event :=
  EvChat (role m) :: EvMarkdown (content m) ::
  match image m with Some (Some f) => [EvImage f] | _ => [] end.

Definition render_log (l : list Message) : list Event :=
  concat (map render_events l).

(** Drawing is none of the calls the claims count. *)
Definition draws (e : Event) : Prop :=
  is_analyze e = false ∧ is_agent_run e = false
  ∧ is_unlink e = false ∧ is_mktemp e = false.

(** The string [analyze_image] returns for an answer of the vision service. *)
Definition analysis_text (r : Result string) : string :=
  match r with
  | Ret t => t
  | Raise e => ANALYZE_ERROR +:+ e
  end.

(** The reply for an answer of [agent.run]. *)
Definition reply_text (r : Result string) : string :=
  match r with
  | Ret t => t
  | Raise e => RUN_ERROR +:+ e
  end.

(** What line 115 or line 117 shows for the analysis [r]. *)
Definition displayed (r : string) : string :=
  if bool_decide (r = SENTINEL) then r else ANALYZED_PREFIX +:+ r.

Definition agent_of (r : Result Agent) : option Agent :=
  match r with Ret a => Some a | Raise _ => None end.

Definition agent_error_log (r : Result Agent) : list Event :=
  match r with Ret _ => [] | Raise e => [EvError (AGENT_ERROR +:+ e)] end.

(** A list of turns made of (user, assistant) pairs. *)
Fixpoint turn_pairs (l : list Message) : bool :=
  match l with
  | [] => true
  | u :: a :: rest =>
      bool_decide (role u = user) && bool_decide (role a = assistant)
      && turn_pairs rest
  | _ => false
  end.

(** A stand-in for [base64.b64encode] on the scenario's file. *)
Definition b64_png : string → string := λ _, "UE5H".

(** An upload in a rerun in which [create_agent()] raises. *)
Definition upload_no_agent : Inputs :=
  mkInputs (Some car_png) None (Raise "401 Unauthorized") "y5z6a7b8".

(** A rerun whose chat input is the empty string. *)
Definition upload_empty_prompt : Inputs :=
  mkInputs (Some car_png) (Some "") (Ret CodeAgent) "u1v2w3x4".

(** Unfold the operations of the monad and the setters, and compute. *)
Ltac run :=
  repeat (progress (unfold mbind, M_bind, mret, M_ret, gets, modify, raise,
                      try_except, of_result, emit, append_message,
                      set_fs, set_messages, set_ss_image_analyzed, set_log,
                      set_image_path, set_image_analyzed, set_image_analysis;
                    cbn)).

(** Project fields out of updated states, and nothing else. *)
Ltac simpl_state :=
  cbn [fs messages ss_image_analyzed log image_path image_analyzed
       image_analysis set_fs set_messages set_ss_image_analyzed set_log
       set_image_path set_image_analyzed set_image_analysis msgs default
       fst snd] in *.

Section Execution.

Variable env : Env.

(** The state in which the upload block starts. *)
Definition prelude_state (i : Inputs) (s : State) : State :=
  mkState (fs s) (Some (msgs s)) (ss_image_analyzed s)
          (log s ++ agent_error_log (create_agent i) ++ render_log (msgs s))
          None false None.

(** The state the upload block leaves. *)
Definition upload_state (i : Inputs) (agent : option Agent) (s : State) : State :=
  match uploaded_file i with
  | None => set_image_analyzed false (set_image_path None s)
  | Some f =>
      let p := tmp_name (tmp_rand i) ".jpg" in
      let d := <[p := uf_value f]> (<[p := ""]> (fs s)) in
      match agent with
      | None =>
          mkState d (messages s) (ss_image_analyzed s)
                  (log s ++ [EvMkTemp p; EvImage f])
                  (Some p) false (image_analysis s)
      | Some _ =>
          let r := analysis_text (vision env (count is_analyze (log s)) p) in
          mkState d
                  (Some (msgs s ++ [mkMessage user "Image uploaded" (Some (Some f));
                                    mkMessage assistant r (Some None)]))
                  (Some true)
                  (log s ++ [EvMkTemp p; EvImage f; EvAnalyze p;
                             EvChat assistant; EvMarkdown (displayed r)])
                  (Some p) true (Some r)
      end
  end.

(** Lines 146-153: the context, and the state once it is composed. *)
Definition query_context (prompt : string) (s : State) : string :=
  if truthy (image_path s) then
    if truthy (image_analysis s) then image_context (the (image_analysis s)) prompt
    else image_context
           (analysis_text (vision env (count is_analyze (log s)) (the (image_path s))))
           prompt
  else prompt.

Definition context_state (s : State) : State :=
  if truthy (image_path s) && negb (truthy (image_analysis s)) then
    set_image_analysis
      (Some (analysis_text (vision env (count is_analyze (log s)) (the (image_path s)))))
      (set_log (log s ++ [EvAnalyze (the (image_path s))]) s)
  else s.

(** Lines 142-168: the reply, and the state once it is computed. *)
Definition reply (agent : option Agent) (prompt : string) (s : State) : string :=
  match agent with
  | None => APOLOGY
  | Some _ =>
      reply_text (agent_run env (count is_agent_run (log s))
                            (agent_prompt (query_context prompt s)))
  end.

Definition respond_state (agent : option Agent) (prompt : string) (s : State) : State :=
  match agent with
  | None => s
  | Some _ =>
      set_log (log (context_state s) ++ [EvAgentRun (agent_prompt (query_context prompt s))])
              (context_state s)
  end.

(** Lines 170-172: whether the temp file is removed, and the state after. *)
Definition removes (s : State) : bool :=
  truthy (image_path s) && bool_decide (is_Some (fs s !! the (image_path s))).

Definition cleanup_state (s : State) : State :=
  if removes s then
    mkState (delete (the (image_path s)) (fs s)) (messages s) (ss_image_analyzed s)
            (log s ++ [EvUnlink (the (image_path s))])
            None (image_analyzed s) (image_analysis s)
  else s.

(** The "image" key of a user turn: present exactly when the uploader holds
    a file. *)
Definition image_key (i : Inputs) : option (option UploadedFile) :=
  match uploaded_file i with Some f => Some (Some f) | None => None end.

Definition image_event (i : Inputs) : list Event :=
  match uploaded_file i with Some f => [EvImage f] | None => [] end.

(** The state in which the reply is computed: the user turn is stored and
    drawn. *)
Definition asked_state (i : Inputs) (s : State) : State :=
  set_log (log s ++ [EvChat user; EvMarkdown (the (prompt i))] ++ image_event i
                 ++ [EvChat assistant])
    (set_messages (Some (msgs s ++ [mkMessage user (the (prompt i)) (image_key i)])) s).

(** The state the text block leaves. *)
Definition text_state (i : Inputs) (agent : option Agent) (s : State) : State :=
  if truthy (prompt i) then
    let response := reply agent (the (prompt i)) (asked_state i s) in
    let s' := cleanup_state (respond_state agent (the (prompt i)) (asked_state i s)) in
    set_messages (Some (msgs s' ++ [mkMessage assistant response (Some None)]))
      (set_log (log s' ++ [EvMarkdown response]) s')
  else s.

(** Lines 178-181. *)
Definition sync_state (s : State) : State :=
  match ss_image_analyzed s with
  | None => set_ss_image_analyzed (Some false) s
  | Some b => set_image_analyzed b s
  end.

(** The whole rerun. *)
Definition upload_done (i : Inputs) (s : State) : State :=
  upload_state i (agent_of (create_agent i)) (prelude_state i s).

Definition text_done (i : Inputs) (s : State) : State :=
  text_state i (agent_of (create_agent i)) (upload_done i s).

Definition upload_turns (i : Inputs) (s : State) : list Message :=
  match uploaded_file i, agent_of (create_agent i) with
  | Some f, Some _ =>
      [mkMessage user "Image uploaded" (Some (Some f));
       mkMessage assistant
         (analysis_text (vision env (count is_analyze (log s))
                                (tmp_name (tmp_rand i) ".jpg")))
         (Some None)]
  | _, _ => []
  end.

Definition text_turns (i : Inputs) (s : State) : list Message :=
  if truthy (prompt i) then
    [mkMessage user (the (prompt i)) (image_key i);
     mkMessage assistant
       (reply (agent_of (create_agent i)) (the (prompt i)) (asked_state i (upload_done i s)))
       (Some None)]
  else [].

(** *** The events of a rerun, from its inputs and the oracles *)

(** The temp file of the rerun. *)
Definition tmp_path (i : Inputs) : string := tmp_name (tmp_rand i) ".jpg".

(** Line 106: the upload block reaches the analysis. *)
Definition analyses (i : Inputs) : bool :=
  is_some (uploaded_file i) && is_some (agent_of (create_agent i)).

(** The answers of [analyze_image] on line 111 and on line 150. *)
Definition first_analysis (i : Inputs) (s : State) : string :=
  analysis_text (vision env (count is_analyze (log s)) (tmp_path i)).

Definition second_analysis (i : Inputs) (s : State) : string :=
  analysis_text (vision env (S (count is_analyze (log s))) (tmp_path i)).

(** Line 150 is reached: the analysis of line 111 came back empty. *)
Definition reanalyses (i : Inputs) (s : State) : bool :=
  bool_decide (first_analysis i s = "").

Definition upload_events (i : Inputs) (s : State) : list Event :=
  match uploaded_file i with
  | None => []
  | Some f =>
      [EvMkTemp (tmp_path i); EvImage f] ++
      match agent_of (create_agent i) with
      | None => []
      | Some _ =>
          [EvAnalyze (tmp_path i); EvChat assistant;
           EvMarkdown (displayed (first_analysis i s))]
      end
  end.

(** The context of line 148, 151 or 153. *)
Definition rerun_context (i : Inputs) (s : State) : string :=
  match uploaded_file i with
  | None => the (prompt i)
  | Some _ =>
      image_context
        (if reanalyses i s then second_analysis i s else first_analysis i s)
        (the (prompt i))
  end.

Definition respond_events (i : Inputs) (s : State) : list Event :=
  match agent_of (create_agent i) with
  | None => []
  | Some _ =>
      (if is_some (uploaded_file i) && reanalyses i s
       then [EvAnalyze (tmp_path i)] else [])
      ++ [EvAgentRun (agent_prompt (rerun_context i s))]
  end.

Definition rerun_reply (i : Inputs) (s : State) : string :=
  match agent_of (create_agent i) with
  | None => APOLOGY
  | Some _ =>
      reply_text (agent_run env (count is_agent_run (log s))
                            (agent_prompt (rerun_context i s)))
  end.

Definition text_events (i : Inputs) (s : State) : list Event :=
  if truthy (prompt i) then
    [EvChat user; EvMarkdown (the (prompt i))] ++ image_event i
    ++ [EvChat assistant] ++ respond_events i s
    ++ (if is_some (uploaded_file i) then [EvUnlink (tmp_path i)] else [])
    ++ [EvMarkdown (rerun_reply i s)]
  else [].

Definition rerun_events (i : Inputs) (s : State) : list Event :=
  agent_error_log (create_agent i) ++ render_log (msgs s)
  ++ upload_events i s ++ text_events i s.

(** The files a rerun leaves. *)
Definition rerun_files (i : Inputs) (s : State) : gmap string string :=
  match uploaded_file i with
  | None => fs s
  | Some f =>
      if truthy (prompt i) then delete (tmp_path i) (fs s)
      else <[tmp_path i := uf_value f]> (fs s)
  end.

(** The temp files a list of reruns leaves behind, with their contents:
    those of the uploads that no text accompanies. *)
Fixpoint left_behind (runs : list Inputs) : list (string * string) :=
  match runs with
  | [] => []
  | i :: runs' =>
      match uploaded_file i with
      | Some f =>
          if truthy (prompt i) then left_behind runs'
          else (tmp_path i, uf_value f) :: left_behind runs'
      | None => left_behind runs'
      end
  end.

(** * Properties *)

(** ** The log and the state setters *)

Lemma count_app k (l1 l2 : list Event) :
  count k (l1 ++ l2) = count k l1 + count k l2.
Proof. unfold count. by rewrite List.filter_app, length_app. Qed.

Lemma count_none k (l : list Event) :
  Forall (λ e, k e = false) l → count k l = 0.
Proof.
  unfold count. induction 1 as [|e l He _ IH]; simpl; [done|].
  by rewrite He.
Qed.

Lemma set_log_same s : set_log (log s) s = s.
Proof. by destruct s. Qed.

(** ** The render loop only draws *)

Lemma render_message_run m s :
  render_message m s = (Ret tt, set_log (log s ++ render_events m) s).
Proof.
  unfold render_message, render_events.
  destruct m as [r c [[f|]|]]; run; by rewrite <- ?app_assoc.
Qed.

Lemma for_each_render l s :
  for_each l render_message s = (Ret tt, set_log (log s ++ render_log l) s).
Proof.
  revert s. induction l as [|m l IH]; intros s.
  - cbn. by rewrite app_nil_r, set_log_same.
  - cbn [for_each]. unfold mbind, M_bind. rewrite render_message_run, IH.
    unfold render_log. cbn. by rewrite <- app_assoc.
Qed.

Lemma render_log_draws l : Forall draws (render_log l).
Proof.
  induction l as [|m l IH]; [constructor|].
  unfold render_log; cbn [map concat]. apply Forall_app. split; [|exact IH].
  destruct m as [r c [[f|]|]]; repeat constructor.
Qed.

(** ** Symbolic execution of the blocks

    Each block of the script returns normally, and the state it leaves is
    written out field by field. *)

Lemma bind_run {A B} (m : M A) (f : A → M B) s a s' :
  m s = (Ret a, s') → (m ≫= f) s = f a s'.
Proof. unfold mbind, M_bind. by intros ->. Qed.

Lemma analyze_image_run p s :
  analyze_image env p s =
    (Ret (analysis_text (vision env (count is_analyze (log s)) p)),
     set_log (log s ++ [EvAnalyze p]) s).
Proof.
  unfold analyze_image. run.
  by destruct (vision env (count is_analyze (log s)) p).
Qed.

Lemma run_agent_run a q s :
  run_agent env a q s =
    (agent_run env (count is_agent_run (log s)) q,
     set_log (log s ++ [EvAgentRun q]) s).
Proof.
  unfold run_agent. run.
  by destruct (agent_run env (count is_agent_run (log s)) q).
Qed.

Lemma init_messages_run s :
  init_messages s = (Ret tt, set_messages (Some (msgs s)) s).
Proof. unfold init_messages. run. by destruct s as [d [m|] b l ip ia an]. Qed.

Lemma construct_agent_run i s :
  construct_agent i s =
    (Ret (agent_of (create_agent i)),
     set_log (log s ++ agent_error_log (create_agent i)) s).
Proof.
  unfold construct_agent. destruct (create_agent i); run; [|done].
  rewrite app_nil_r. by destruct s.
Qed.

Lemma render_history_run s :
  render_history s = (Ret tt, set_log (log s ++ render_log (msgs s)) s).
Proof.
  unfold render_history. erewrite bind_run by reflexivity.
  apply for_each_render.
Qed.

Lemma script_prelude i s :
  script env i s =
    (upload_block env i (agent_of (create_agent i)) ;;
     text_block env i (agent_of (create_agent i)) ;;
     sync_image_analyzed) (prelude_state i s).
Proof.
  unfold script, prelude_state.
  erewrite bind_run by reflexivity.
  erewrite bind_run by apply init_messages_run.
  erewrite bind_run by apply construct_agent_run.
  erewrite bind_run by apply render_history_run.
  f_equal. unfold msgs. cbn. by rewrite <- app_assoc.
Qed.

Lemma tmp_name_truthy rand suffix : truthy (Some (tmp_name rand suffix)) = true.
Proof. unfold truthy. by rewrite bool_decide_eq_false_2. Qed.

Lemma count_snoc_analyze (l l' : list Event) :
  count is_analyze l' = 0 → count is_analyze (l ++ l') = count is_analyze l.
Proof. intros H. rewrite count_app, H. lia. Qed.

Lemma analysis_step_run f p s :
  image_path s = Some p →
  analysis_step env f s =
    (Ret tt,
     let r := analysis_text (vision env (count is_analyze (log s)) p) in
     mkState (fs s)
             (Some (msgs s ++ [mkMessage user "Image uploaded" (Some (Some f));
                               mkMessage assistant r (Some None)]))
             (Some true)
             (log s ++ [EvAnalyze p; EvChat assistant; EvMarkdown (displayed r)])
             (image_path s) true (Some r)).
Proof.
  intros Hp. unfold analysis_step, try_except.
  erewrite bind_run by reflexivity.
  erewrite bind_run by reflexivity.
  erewrite bind_run by apply analyze_image_run.
  cbn. rewrite Hp. cbn.
  set (r := analysis_text _). unfold displayed.
  destruct (bool_decide (r = SENTINEL)); run; by rewrite ?Hp, <- !app_assoc.
Qed.

Lemma upload_block_run i agent s :
  upload_block env i agent s = (Ret tt, upload_state i agent s).
Proof.
  unfold upload_block, upload_state.
  erewrite bind_run by reflexivity.
  erewrite bind_run by reflexivity.
  erewrite bind_run by reflexivity.
  destruct (uploaded_file i) as [f|]; [|done]. cbn [negb image_analyzed set_image_analyzed].
  unfold named_temporary_file, file_write.
  repeat (erewrite bind_run by reflexivity). simpl_state.
  rewrite tmp_name_truthy.
  destruct agent as [a|]; cbn [is_some andb].
  - erewrite analysis_step_run by reflexivity. simpl_state.
    rewrite !count_snoc_analyze by reflexivity.
    by rewrite <- !app_assoc.
  - by rewrite <- !app_assoc.
Qed.

Lemma compose_context_run prompt s :
  compose_context env prompt s = (Ret (query_context prompt s), context_state s).
Proof.
  unfold compose_context, query_context, context_state.
  erewrite bind_run by reflexivity.
  destruct (truthy (image_path s)); [|done].
  erewrite bind_run by reflexivity.
  destruct (truthy (image_analysis s)); [done|].
  erewrite bind_run by apply analyze_image_run.
  by erewrite bind_run by reflexivity.
Qed.

Lemma context_state_agent_runs s :
  count is_agent_run (log (context_state s)) = count is_agent_run (log s).
Proof.
  unfold context_state. destruct (_ && _); [|done]. simpl_state.
  rewrite count_app. cbn. lia.
Qed.

Lemma respond_run agent prompt s :
  respond env agent prompt s = (Ret (reply agent prompt s), respond_state agent prompt s).
Proof.
  unfold respond, reply, respond_state. destruct agent as [a|]; [|done].
  unfold try_except.
  erewrite bind_run by apply compose_context_run.
  rewrite run_agent_run, context_state_agent_runs.
  by destruct (agent_run env _ _).
Qed.

Lemma os_unlink_run p s :
  is_Some (fs s !! p) →
  os_unlink p s =
    (Ret tt, set_fs (delete p (fs s)) (set_log (log s ++ [EvUnlink p]) s)).
Proof.
  intros Hex. unfold os_unlink, os_path_exists.
  repeat (erewrite bind_run by reflexivity). simpl_state.
  by rewrite bool_decide_eq_true_2.
Qed.

(** On a path that is not there the call raises. *)
Lemma os_unlink_missing p s :
  fs s !! p = None → ∃ e, (os_unlink p s).1 = Raise e.
Proof.
  intros Hex. unfold os_unlink, os_path_exists.
  repeat (erewrite bind_run by reflexivity). simpl_state.
  rewrite bool_decide_eq_false_2; [by eexists|].
  rewrite Hex. by intros [? ?].
Qed.

Lemma cleanup_run s : cleanup s = (Ret tt, cleanup_state s).
Proof.
  unfold cleanup, cleanup_state, removes.
  erewrite bind_run by reflexivity.
  destruct (truthy (image_path s)); cbn [andb].
  - unfold os_path_exists at 1. erewrite bind_run by reflexivity.
    destruct (bool_decide (is_Some (fs s !! the (image_path s)))) eqn:Hex; [|done].
    apply bool_decide_eq_true in Hex.
    by erewrite bind_run by (by apply os_unlink_run).
  - by erewrite bind_run by reflexivity.
Qed.

Lemma draw_upload_run i s :
  (match uploaded_file i with Some f => emit (EvImage f) | None => mret tt end) s
  = (Ret tt, set_log (log s ++ image_event i) s).
Proof.
  unfold image_event. destruct (uploaded_file i); [done|].
  run. rewrite app_nil_r. by destruct s.
Qed.

Lemma text_block_run i agent s :
  text_block env i agent s = (Ret tt, text_state i agent s).
Proof.
  unfold text_block, text_state. destruct (truthy (prompt i)); [|done].
  erewrite bind_run by reflexivity.
  erewrite bind_run by reflexivity.
  erewrite bind_run by reflexivity.
  erewrite bind_run by apply draw_upload_run.
  erewrite bind_run by reflexivity.
  match goal with |- (_ ≫= _) ?s0 = _ =>
    replace s0 with (asked_state i s) end; cycle 1.
  { unfold asked_state, image_key. run. by rewrite <- !app_assoc. }
  erewrite bind_run by apply respond_run.
  erewrite bind_run by apply cleanup_run.
  by erewrite bind_run by reflexivity.
Qed.

Lemma sync_image_analyzed_run s : sync_image_analyzed s = (Ret tt, sync_state s).
Proof.
  unfold sync_image_analyzed, sync_state.
  erewrite bind_run by reflexivity. by destruct (ss_image_analyzed s).
Qed.

Lemma script_run i s : script env i s = (Ret tt, sync_state (text_done i s)).
Proof.
  rewrite script_prelude.
  erewrite bind_run by apply upload_block_run.
  erewrite bind_run by apply text_block_run.
  apply sync_image_analyzed_run.
Qed.

Lemma rerun_eq i s : rerun env s i = sync_state (text_done i s).
Proof. unfold rerun. by rewrite script_run. Qed.

(** *** What each block does to the conversation store *)

Lemma agent_error_log_draws r : Forall draws (agent_error_log r).
Proof. destruct r; repeat constructor. Qed.

Lemma count_draws k (l : list Event) :
  (∀ e, draws e → k e = false) → Forall draws l → count k l = 0.
Proof.
  intros Hk Hl. apply count_none.
  eapply Forall_impl; [exact Hl|]. exact Hk.
Qed.

Lemma prelude_log_count k i s :
  (∀ e, draws e → k e = false) →
  count k (log (prelude_state i s)) = count k (log s).
Proof.
  intros Hk. unfold prelude_state. simpl_state.
  rewrite !count_app.
  rewrite (count_draws k (agent_error_log _)) by auto using agent_error_log_draws.
  rewrite (count_draws k (render_log _)) by auto using render_log_draws.
  lia.
Qed.

Lemma draws_analyze e : draws e → is_analyze e = false.
Proof. by intros (? & ? & ? & ?). Qed.
Lemma draws_agent_run e : draws e → is_agent_run e = false.
Proof. by intros (? & ? & ? & ?). Qed.
Lemma draws_unlink e : draws e → is_unlink e = false.
Proof. by intros (? & ? & ? & ?). Qed.

Lemma msgs_upload_done i s :
  msgs (upload_done i s) = msgs s ++ upload_turns i s.
Proof.
  unfold upload_done, upload_state, upload_turns.
  rewrite (prelude_log_count is_analyze) by apply draws_analyze.
  destruct (uploaded_file i) as [f|], (agent_of (create_agent i)) as [a|];
    simpl_state; by rewrite ?app_nil_r.
Qed.

Lemma messages_cleanup_state s : messages (cleanup_state s) = messages s.
Proof. unfold cleanup_state. by destruct (removes s). Qed.

Lemma messages_respond_state agent prompt s :
  messages (respond_state agent prompt s) = messages s.
Proof.
  unfold respond_state, context_state.
  destruct agent; [|done]. by destruct (_ && _).
Qed.

Lemma msgs_text_done i s :
  msgs (text_done i s) = msgs (upload_done i s) ++ text_turns i s.
Proof.
  unfold text_done, text_state, text_turns.
  destruct (truthy (prompt i)); [|by rewrite app_nil_r].
  unfold msgs at 1. simpl_state. unfold id.
  unfold msgs at 1. rewrite messages_cleanup_state, messages_respond_state.
  unfold asked_state. simpl_state. unfold id. by rewrite <- app_assoc.
Qed.

Lemma msgs_rerun i s :
  msgs (rerun env s i) = msgs s ++ upload_turns i s ++ text_turns i s.
Proof.
  rewrite rerun_eq. unfold sync_state, msgs at 1.
  destruct (ss_image_analyzed _); simpl_state; fold (msgs (text_done i s));
    by rewrite msgs_text_done, msgs_upload_done, <- app_assoc.
Qed.

(** *** What each block does to the log, the files and [image_path] *)

Lemma log_sync_state s : log (sync_state s) = log s.
Proof. unfold sync_state. by destruct (ss_image_analyzed s). Qed.

Lemma agent_runs_upload_state i agent s :
  count is_agent_run (log (upload_state i agent s)) = count is_agent_run (log s).
Proof.
  unfold upload_state. destruct (uploaded_file i), agent; simpl_state;
    rewrite ?count_app; cbn; lia.
Qed.

Lemma agent_runs_upload_done i s :
  count is_agent_run (log (upload_done i s)) = count is_agent_run (log s).
Proof.
  unfold upload_done. rewrite agent_runs_upload_state.
  apply prelude_log_count, draws_agent_run.
Qed.

Lemma agent_runs_asked_state i s :
  count is_agent_run (log (asked_state i s)) = count is_agent_run (log s).
Proof.
  unfold asked_state, image_event. simpl_state.
  destruct (uploaded_file i); rewrite count_app; cbn; lia.
Qed.

Lemma agent_runs_cleanup_state s :
  count is_agent_run (log (cleanup_state s)) = count is_agent_run (log s).
Proof.
  unfold cleanup_state. destruct (removes s); [|done]. simpl_state.
  rewrite count_app. cbn. lia.
Qed.

(** Without an agent a rerun never reaches [agent.run]. *)
Lemma agent_runs_without_agent i s :
  agent_of (create_agent i) = None →
  count is_agent_run (log (rerun env s i)) = count is_agent_run (log s).
Proof.
  intros Hag. rewrite rerun_eq, log_sync_state.
  unfold text_done, text_state. rewrite Hag.
  destruct (truthy (prompt i)); simpl_state.
  - rewrite count_app. cbn [respond_state].
    rewrite agent_runs_cleanup_state, agent_runs_asked_state.
    rewrite agent_runs_upload_done. cbn. lia.
  - by rewrite agent_runs_upload_done.
Qed.

Lemma fs_respond_state agent prompt s : fs (respond_state agent prompt s) = fs s.
Proof.
  unfold respond_state, context_state. destruct agent; [|done].
  by destruct (_ && _).
Qed.

Lemma image_path_respond_state agent prompt s :
  image_path (respond_state agent prompt s) = image_path s.
Proof.
  unfold respond_state, context_state. destruct agent; [|done].
  by destruct (_ && _).
Qed.

Lemma unlinks_asked_state i s :
  List.filter is_unlink (log (asked_state i s)) = List.filter is_unlink (log s).
Proof.
  unfold asked_state, image_event. simpl_state.
  destruct (uploaded_file i); rewrite List.filter_app; cbn; by rewrite app_nil_r.
Qed.

Lemma unlinks_respond_state agent prompt s :
  List.filter is_unlink (log (respond_state agent prompt s))
  = List.filter is_unlink (log s).
Proof.
  unfold respond_state, context_state. destruct agent; [|done].
  destruct (_ && _); simpl_state; rewrite !List.filter_app; cbn;
    by rewrite !app_nil_r.
Qed.

(** *** The state after the upload block, from the inputs *)

Lemma count_analyze_prelude i s :
  count is_analyze (log (prelude_state i s)) = count is_analyze (log s).
Proof. apply prelude_log_count, draws_analyze. Qed.

Lemma log_upload_done i s :
  log (upload_done i s) =
    log s ++ agent_error_log (create_agent i) ++ render_log (msgs s)
    ++ upload_events i s.
Proof.
  unfold upload_done, upload_state, upload_events, first_analysis, tmp_path.
  rewrite count_analyze_prelude.
  destruct (uploaded_file i) as [f|], (agent_of (create_agent i)) as [a|];
    unfold prelude_state; simpl_state; by rewrite <- ?app_assoc, ?app_nil_r.
Qed.

Lemma image_path_upload_done i s :
  image_path (upload_done i s)
  = match uploaded_file i with Some _ => Some (tmp_path i) | None => None end.
Proof.
  unfold upload_done, upload_state.
  by destruct (uploaded_file i), (agent_of (create_agent i)).
Qed.

Lemma image_analysis_upload_done i s :
  image_analysis (upload_done i s)
  = if analyses i then Some (first_analysis i s) else None.
Proof.
  unfold upload_done, upload_state, analyses, first_analysis, tmp_path.
  rewrite count_analyze_prelude.
  by destruct (uploaded_file i), (agent_of (create_agent i)).
Qed.

Lemma fs_upload_done i s :
  fs (upload_done i s)
  = match uploaded_file i with
    | Some f => <[tmp_path i := uf_value f]> (fs s)
    | None => fs s
    end.
Proof.
  unfold upload_done, upload_state, tmp_path.
  destruct (uploaded_file i), (agent_of (create_agent i)); simpl_state;
    by rewrite ?insert_insert_eq.
Qed.

Lemma count_analyze_upload_done i s :
  count is_analyze (log (upload_done i s))
  = if analyses i then S (count is_analyze (log s)) else count is_analyze (log s).
Proof.
  unfold upload_done, upload_state, analyses.
  destruct (uploaded_file i), (agent_of (create_agent i)); simpl_state;
    rewrite ?count_app, ?count_analyze_prelude; cbn; lia.
Qed.

(** *** The text block, from the inputs *)

Lemma count_analyze_asked_state i s :
  count is_analyze (log (asked_state i s)) = count is_analyze (log s).
Proof.
  unfold asked_state, image_event. simpl_state.
  destruct (uploaded_file i); rewrite count_app; cbn; lia.
Qed.

Lemma truthy_text (t : string) : truthy (Some t) = negb (bool_decide (t = "")).
Proof. done. Qed.

(** With an agent, the context of the query is the one written out. *)
Lemma query_context_rerun i s a :
  agent_of (create_agent i) = Some a →
  query_context (the (prompt i)) (asked_state i (upload_done i s))
  = rerun_context i s.
Proof.
  intros Ha. unfold query_context, rerun_context, reanalyses, second_analysis.
  rewrite count_analyze_asked_state, count_analyze_upload_done.
  change (image_path (asked_state i (upload_done i s)))
    with (image_path (upload_done i s)).
  change (image_analysis (asked_state i (upload_done i s)))
    with (image_analysis (upload_done i s)).
  rewrite image_path_upload_done, image_analysis_upload_done.
  unfold analyses. rewrite Ha.
  destruct (uploaded_file i) as [f|]; [|done]. cbn [is_some andb the default].
  unfold tmp_path at 1. rewrite tmp_name_truthy, truthy_text. unfold id.
  by destruct (bool_decide (first_analysis i s = "")).
Qed.

Lemma context_state_rerun i s a :
  agent_of (create_agent i) = Some a →
  context_state (asked_state i (upload_done i s))
  = if is_some (uploaded_file i) && reanalyses i s then
      set_image_analysis (Some (second_analysis i s))
        (set_log (log (asked_state i (upload_done i s)) ++ [EvAnalyze (tmp_path i)])
                 (asked_state i (upload_done i s)))
    else asked_state i (upload_done i s).
Proof.
  intros Ha. unfold context_state, reanalyses, second_analysis.
  rewrite count_analyze_asked_state, count_analyze_upload_done.
  change (image_path (asked_state i (upload_done i s)))
    with (image_path (upload_done i s)).
  change (image_analysis (asked_state i (upload_done i s)))
    with (image_analysis (upload_done i s)).
  rewrite image_path_upload_done, image_analysis_upload_done.
  unfold analyses. rewrite Ha.
  destruct (uploaded_file i) as [f|]; [|done]. cbn [is_some andb the default].
  unfold tmp_path at 1. rewrite tmp_name_truthy, truthy_text. unfold id.
  rewrite negb_involutive. cbn [andb].
  by destruct (bool_decide (first_analysis i s = "")).
Qed.

Lemma reply_rerun i s :
  reply (agent_of (create_agent i)) (the (prompt i))
        (asked_state i (upload_done i s))
  = rerun_reply i s.
Proof.
  unfold reply, rerun_reply.
  destruct (agent_of (create_agent i)) as [a|] eqn:Ha; [|done].
  by rewrite (query_context_rerun i s a Ha), agent_runs_asked_state,
       agent_runs_upload_done.
Qed.

Lemma log_respond_state_rerun i s :
  log (respond_state (agent_of (create_agent i)) (the (prompt i))
         (asked_state i (upload_done i s)))
  = log (asked_state i (upload_done i s)) ++ respond_events i s.
Proof.
  unfold respond_state, respond_events.
  destruct (agent_of (create_agent i)) as [a|] eqn:Ha; [|by rewrite app_nil_r].
  rewrite (query_context_rerun i s a Ha), (context_state_rerun i s a Ha).
  destruct (is_some (uploaded_file i) && reanalyses i s); simpl_state;
    by rewrite <- ?app_assoc.
Qed.

(** The temp file written by the upload block is there when line 170 tests
    for it. *)
Lemma removes_rerun i s :
  removes (respond_state (agent_of (create_agent i)) (the (prompt i))
             (asked_state i (upload_done i s)))
  = is_some (uploaded_file i).
Proof.
  unfold removes.
  rewrite image_path_respond_state, fs_respond_state.
  change (image_path (asked_state i (upload_done i s)))
    with (image_path (upload_done i s)).
  change (fs (asked_state i (upload_done i s))) with (fs (upload_done i s)).
  rewrite image_path_upload_done, fs_upload_done.
  destruct (uploaded_file i) as [f|]; [|done].
  unfold tmp_path at 1. rewrite tmp_name_truthy. cbn [andb the default is_some].
  unfold id. apply bool_decide_eq_true_2. rewrite lookup_insert_eq. by eexists.
Qed.

Lemma log_text_done i s :
  log (text_done i s) = log (upload_done i s) ++ text_events i s.
Proof.
  unfold text_done, text_state, text_events.
  destruct (truthy (prompt i)); [|by rewrite app_nil_r].
  simpl_state. rewrite reply_rerun.
  unfold cleanup_state. rewrite removes_rerun.
  destruct (uploaded_file i) as [f|] eqn:Hf; cbn [is_some]; simpl_state;
    rewrite log_respond_state_rerun, ?image_path_respond_state;
    change (image_path (asked_state i (upload_done i s)))
      with (image_path (upload_done i s));
    rewrite ?image_path_upload_done, ?Hf; unfold asked_state; simpl_state;
    cbn [the default]; unfold id; by rewrite <- ?app_assoc.
Qed.

Lemma fs_text_done i s : fs (text_done i s) = rerun_files i s.
Proof.
  unfold text_done, text_state, rerun_files.
  destruct (truthy (prompt i)).
  - simpl_state. unfold cleanup_state. rewrite removes_rerun.
    destruct (uploaded_file i) as [f|] eqn:Hf; cbn [is_some]; simpl_state;
      rewrite ?image_path_respond_state, fs_respond_state;
      change (image_path (asked_state i (upload_done i s)))
        with (image_path (upload_done i s));
      change (fs (asked_state i (upload_done i s))) with (fs (upload_done i s));
      rewrite ?image_path_upload_done, fs_upload_done, Hf; [|done].
    cbn [the default]. unfold id. by rewrite delete_insert_eq.
  - apply fs_upload_done.
Qed.

(** The trace and the files of a rerun. *)
Lemma log_rerun i s : log (rerun env s i) = log s ++ rerun_events i s.
Proof.
  rewrite rerun_eq, log_sync_state, log_text_done, log_upload_done.
  unfold rerun_events. by rewrite <- !app_assoc.
Qed.

Lemma fs_rerun i s : fs (rerun env s i) = rerun_files i s.
Proof.
  rewrite rerun_eq. unfold sync_state.
  destruct (ss_image_analyzed _); apply fs_text_done.
Qed.

(** *** The calls of a rerun, kind by kind *)

Lemma filter_render_log k l :
  (∀ r, k (EvChat r) = false) → (∀ t, k (EvMarkdown t) = false) →
  (∀ f, k (EvImage f) = false) →
  List.filter k (render_log l) = [].
Proof.
  intros Hc Hm Hi. induction l as [|m l IH]; [done|].
  unfold render_log. cbn [map concat]. rewrite List.filter_app.
  fold (render_log l). rewrite IH, app_nil_r.
  unfold render_events. cbn. rewrite Hc, Hm.
  destruct (image m) as [[f|]|]; cbn; by rewrite ?Hi.
Qed.

Lemma unlinks_rerun i s :
  List.filter is_unlink (log (rerun env s i))
  = List.filter is_unlink (log s)
    ++ (if is_some (uploaded_file i) && truthy (prompt i)
        then [EvUnlink (tmp_path i)] else []).
Proof.
  rewrite log_rerun. unfold rerun_events.
  rewrite !List.filter_app, filter_render_log by done. f_equal.
  unfold upload_events, text_events, respond_events, image_event.
  destruct (create_agent i), (uploaded_file i), (truthy (prompt i));
    cbn; try done; by destruct (reanalyses i s).
Qed.

Lemma mktemps_rerun i s :
  List.filter is_mktemp (log (rerun env s i))
  = List.filter is_mktemp (log s)
    ++ (if is_some (uploaded_file i) then [EvMkTemp (tmp_path i)] else []).
Proof.
  rewrite log_rerun. unfold rerun_events.
  rewrite !List.filter_app, filter_render_log by done. f_equal.
  unfold upload_events, text_events, respond_events, image_event.
  destruct (create_agent i), (uploaded_file i), (truthy (prompt i));
    cbn; try done; by destruct (reanalyses i s).
Qed.

Lemma analyzes_rerun i s :
  List.filter is_analyze (log (rerun env s i))
  = List.filter is_analyze (log s)
    ++ (if analyses i then
          EvAnalyze (tmp_path i)
          :: (if truthy (prompt i) && reanalyses i s
              then [EvAnalyze (tmp_path i)] else [])
        else []).
Proof.
  rewrite log_rerun. unfold rerun_events.
  rewrite !List.filter_app, filter_render_log by done. f_equal.
  unfold upload_events, text_events, respond_events, image_event, analyses.
  destruct (create_agent i), (uploaded_file i), (truthy (prompt i));
    cbn; try done; by destruct (reanalyses i s).
Qed.

Lemma agent_calls_rerun i s :
  List.filter is_agent_run (log (rerun env s i))
  = List.filter is_agent_run (log s)
    ++ (if truthy (prompt i) && is_some (agent_of (create_agent i))
        then [EvAgentRun (agent_prompt (rerun_context i s))] else []).
Proof.
  rewrite log_rerun. unfold rerun_events.
  rewrite !List.filter_app, filter_render_log by done. f_equal.
  unfold upload_events, text_events, respond_events, image_event.
  destruct (create_agent i), (uploaded_file i), (truthy (prompt i));
    cbn; try done; by destruct (reanalyses i s).
Qed.

Lemma errors_rerun i s :
  List.filter is_error (log (rerun env s i))
  = List.filter is_error (log s) ++ agent_error_log (create_agent i).
Proof.
  rewrite log_rerun. unfold rerun_events.
  rewrite !List.filter_app, filter_render_log by done. f_equal.
  unfold upload_events, text_events, respond_events, image_event.
  destruct (create_agent i), (uploaded_file i), (truthy (prompt i));
    cbn; try done; by destruct (reanalyses i s).
Qed.

(** *** The flags of a rerun *)

Lemma flags_cleanup_state s :
  ss_image_analyzed (cleanup_state s) = ss_image_analyzed s
  ∧ image_analyzed (cleanup_state s) = image_analyzed s.
Proof. unfold cleanup_state. by destruct (removes s). Qed.

Lemma flags_respond_state agent prompt s :
  ss_image_analyzed (respond_state agent prompt s) = ss_image_analyzed s
  ∧ image_analyzed (respond_state agent prompt s) = image_analyzed s.
Proof.
  unfold respond_state, context_state. destruct agent; [|done].
  by destruct (_ && _).
Qed.

Lemma flags_upload_done i s :
  ss_image_analyzed (upload_done i s)
  = (if analyses i then Some true else ss_image_analyzed s)
  ∧ image_analyzed (upload_done i s) = analyses i.
Proof.
  unfold upload_done, upload_state, analyses.
  by destruct (uploaded_file i), (agent_of (create_agent i)).
Qed.

Lemma flags_text_done i s :
  ss_image_analyzed (text_done i s)
  = (if analyses i then Some true else ss_image_analyzed s)
  ∧ image_analyzed (text_done i s) = analyses i.
Proof.
  unfold text_done, text_state.
  destruct (truthy (prompt i)); [|apply flags_upload_done]. simpl_state.
  destruct (flags_cleanup_state
              (respond_state (agent_of (create_agent i)) (the (prompt i))
                 (asked_state i (upload_done i s)))) as [-> ->].
  destruct (flags_respond_state (agent_of (create_agent i)) (the (prompt i))
              (asked_state i (upload_done i s))) as [-> ->].
  apply flags_upload_done.
Qed.

End Execution.

(** * The claims *)

(** ** The image-analysis operation *)

(** C6: [analyze_image] is total and never raises: on every path, in every
    state and for every answer of the vision service it returns a string,
    the text of the service or, when the service call raises with message
    [e], the string "Error analyzing image: " followed by [e]. *)
Theorem analyze_image_never_raises env image_path s :
  (analyze_image env image_path s).1 =
    Ret (match vision env (count is_analyze (log s)) image_path with
         | Ret text => text
         | Raise e => "Error analyzing image: " +:+ e
         end).
Proof. by rewrite analyze_image_run. Qed.

(** ** The upload path *)

(** The turns a rerun appends when the uploader holds a file and the agent
    exists: the stored assistant text is what [analyze_image] returned. *)
Lemma upload_appends_analysis env s i f a :
  uploaded_file i = Some f →
  create_agent i = Ret a →
  msgs (rerun env s i) =
    msgs s
    ++ [mkMessage user "Image uploaded" (Some (Some f));
        mkMessage assistant
          (analysis_text (vision env (count is_analyze (log s))
                                 (tmp_name (tmp_rand i) ".jpg")))
          (Some None)]
    ++ text_turns env i s.
Proof.
  intros Hf Ha. rewrite msgs_rerun. unfold upload_turns.
  by rewrite Hf, Ha.
Qed.

Lemma text_turns_no_prompt env i s : prompt i = None → text_turns env i s = [].
Proof. unfold text_turns. by intros ->. Qed.

(** C5: when the analysis of an uploaded image returns the sentinel, the
    rerun appends the user turn "Image uploaded" and an assistant turn whose
    text is the sentinel itself, nothing before it and nothing after it; a
    rerun without a text submission appends nothing else. *)
Theorem sentinel_turn_is_verbatim env s i f a :
  uploaded_file i = Some f →
  create_agent i = Ret a →
  vision env (count is_analyze (log s)) (tmp_name (tmp_rand i) ".jpg")
    = Ret "Please upload a clearer image" →
  ∃ rest,
    msgs (rerun env s i) =
      msgs s
      ++ [mkMessage user "Image uploaded" (Some (Some f));
          mkMessage assistant "Please upload a clearer image" (Some None)]
      ++ rest
    ∧ (prompt i = None → rest = []).
Proof.
  intros Hf Ha Hv. exists (text_turns env i s). split.
  - rewrite (upload_appends_analysis env s i f a Hf Ha). by rewrite Hv.
  - apply text_turns_no_prompt.
Qed.

(** ** The image field of the stored turns *)

(** C9: the turns a rerun appends are well formed.  Every assistant turn has
    the key "image" bound to [None]; every user turn has the key bound to
    the uploaded file when the uploader holds one and has no such key when it
    holds none; and the render loop, which tests for the key, draws a turn
    without the key as its text alone and returns. *)
Theorem appended_turns_image_field env s i :
  ∃ new,
    msgs (rerun env s i) = msgs s ++ new
    ∧ Forall (λ m, match role m with
                   | assistant => image m = Some None
                   | user =>
                       image m = match uploaded_file i with
                                 | Some f => Some (Some f)
                                 | None => None
                                 end
                   end) new
    ∧ ∀ r c st,
        render_message (mkMessage r c None) st
        = (Ret tt, set_log (log st ++ [EvChat r; EvMarkdown c]) st).
Proof.
  exists (upload_turns env i s ++ text_turns env i s).
  split; [apply msgs_rerun|]. split.
  - apply Forall_app. split.
    + unfold upload_turns.
      destruct (uploaded_file i), (agent_of (create_agent i));
        repeat constructor.
    + unfold text_turns, image_key.
      destruct (truthy (prompt i)); repeat constructor.
  - intros r c st. by rewrite render_message_run.
Qed.

(** ** The text path *)

Lemma truthy_prompt i p : prompt i = Some p → p ≠ "" → truthy (prompt i) = true.
Proof. intros -> Hp. unfold truthy. by rewrite bool_decide_eq_false_2. Qed.

(** One rerun without an agent: the upload block stores nothing and the
    reply is the apology. *)
Lemma apology_rerun env s i e p :
  create_agent i = Raise e → prompt i = Some p → p ≠ "" →
  msgs (rerun env s i) =
    msgs s ++ [mkMessage user p (image_key i); mkMessage assistant APOLOGY (Some None)].
Proof.
  intros He Hp Hne. rewrite msgs_rerun.
  unfold upload_turns, text_turns.
  rewrite (truthy_prompt i p Hp Hne), He, Hp.
  by destruct (uploaded_file i).
Qed.

Lemma session_snoc env s runs i :
  session env s (runs ++ [i]) = rerun env (session env s runs) i.
Proof. unfold session. by rewrite foldl_app. Qed.

Lemma agent_runs_session env runs : ∀ s,
  Forall (λ i, ∃ e, create_agent i = Raise e) runs →
  count is_agent_run (log (session env s runs)) = count is_agent_run (log s).
Proof.
  induction runs as [|i runs IH]; intros s Hruns; [done|].
  inversion Hruns as [|? ? [e He] Hrest]; subst.
  cbn [session foldl]. fold (session env (rerun env s i) runs).
  rewrite IH by done. apply agent_runs_without_agent. by rewrite He.
Qed.

(** C7 (as amended): in every rerun in which the construction of the agent
    fails, whatever the session did before, a text submission appends, after
    the user turn, an assistant turn with the fixed apology, and [agent.run]
    is not called in that rerun.  Nothing is remembered of the failure: the
    next rerun constructs the agent again. *)
Theorem construction_failure_apology env s i e p :
  create_agent i = Raise e → prompt i = Some p → p ≠ "" →
  msgs (rerun env s i) =
    msgs s
    ++ [mkMessage user p
          (match uploaded_file i with Some f => Some (Some f) | None => None end);
        mkMessage assistant
          "Sorry, I'm having trouble initializing. Please try again later."
          (Some None)]
  ∧ List.filter is_agent_run (log (rerun env s i))
    = List.filter is_agent_run (log s).
Proof.
  intros He Hp Hne. split.
  - by apply (apology_rerun env s i e p).
  - rewrite agent_calls_rerun, He. cbn [agent_of is_some].
    by rewrite andb_false_r, app_nil_r.
Qed.

(** C8: when [agent.run] raises with message [m], the rerun still returns
    normally, and the turn it appends after the user turn is an ordinary
    assistant turn with the text "Sorry, I encountered an error: " followed
    by [m]. *)
Theorem agent_failure_is_a_turn env s i a p m :
  create_agent i = Ret a → prompt i = Some p → p ≠ "" →
  (∀ q, agent_run env (count is_agent_run (log s)) q = Raise m) →
  (script env i s).1 = Ret tt
  ∧ ∃ earlier,
      msgs (rerun env s i) =
        msgs s ++ earlier
        ++ [mkMessage user p
              (match uploaded_file i with Some f => Some (Some f) | None => None end);
            mkMessage assistant ("Sorry, I encountered an error: " +:+ m) (Some None)].
Proof.
  intros Ha Hp Hne Hrun. split; [by rewrite script_run|].
  exists (upload_turns env i s). rewrite msgs_rerun. do 2 f_equal.
  unfold text_turns, reply.
  rewrite (truthy_prompt i p Hp Hne), Ha, Hp. cbn [agent_of the default].
  rewrite agent_runs_asked_state, agent_runs_upload_done, Hrun.
  reflexivity.
Qed.

(** C10: in the text block the removal of the temp file sits after the
    [try]/[except] and behind the existence test.  Whatever the agent is
    ([None] or constructed) and whatever [agent.run] does, the block returns
    normally; when the file of [image_path] exists it is unlinked, once, and
    [image_path] is [None] afterwards; when it is already gone nothing is
    unlinked and nothing is raised. *)
Theorem text_block_cleanup env i agent s p :
  truthy (prompt i) = true → image_path s = Some p → p ≠ "" →
  (text_block env i agent s).1 = Ret tt
  ∧ (is_Some (fs s !! p) →
       fs (text_block env i agent s).2 = delete p (fs s)
       ∧ image_path (text_block env i agent s).2 = None
       ∧ List.filter is_unlink (log (text_block env i agent s).2)
         = List.filter is_unlink (log s) ++ [EvUnlink p])
  ∧ (fs s !! p = None →
       fs (text_block env i agent s).2 = fs s
       ∧ List.filter is_unlink (log (text_block env i agent s).2)
         = List.filter is_unlink (log s)).
Proof.
  intros Hprompt Hpath Hne. rewrite text_block_run. cbn [fst snd].
  split; [done|].
  unfold text_state. rewrite Hprompt. simpl_state.
  set (s1 := respond_state env agent _ _).
  assert (Hfs : fs s1 = fs s) by (unfold s1; by rewrite fs_respond_state).
  assert (Hip : image_path s1 = Some p)
    by (unfold s1; by rewrite image_path_respond_state).
  assert (Hlog : List.filter is_unlink (log s1) = List.filter is_unlink (log s))
    by (unfold s1; by rewrite unlinks_respond_state, unlinks_asked_state).
  assert (Htr : truthy (Some p) = true)
    by (unfold truthy; by rewrite bool_decide_eq_false_2).
  unfold cleanup_state, removes. rewrite Hip, Hfs, Htr. cbn [andb the default].
  unfold id.
  split.
  - intros Hex. rewrite bool_decide_eq_true_2 by done. simpl_state.
    rewrite !List.filter_app, Hlog. cbn. by rewrite app_nil_r.
  - intros Hex. rewrite bool_decide_eq_false_2; cycle 1.
    { rewrite Hex. by intros [? ?]. }
    rewrite Hfs, List.filter_app, Hlog. cbn. by rewrite app_nil_r.
Qed.

(** ** Where the script departs from the claims *)

(** C1: for the clear picture the assistant text shown on upload carries the
    prefix "I've analyzed the uploaded image:", but the turn line 119 stores
    holds the bare analysis text. *)
Theorem clear_image_turn_lacks_prefix :
  log (rerun env_clear (initial_state ∅) upload_only)
    = [EvMkTemp "/tmp/tmpa1b2c3d4.jpg"; EvImage car_png;
       EvAnalyze "/tmp/tmpa1b2c3d4.jpg"; EvChat assistant;
       EvMarkdown ("I've analyzed the uploaded image:" +:+ nl +:+ nl +:+ clear_text)]
  ∧ msgs (rerun env_clear (initial_state ∅) upload_only)
    = [mkMessage user "Image uploaded" (Some (Some car_png));
       mkMessage assistant clear_text (Some None)]
  ∧ last (msgs (rerun env_clear (initial_state ∅) upload_only))
    ≠ Some (mkMessage assistant
              ("I've analyzed the uploaded image:" +:+ nl +:+ nl +:+ clear_text)
              (Some None)).
Proof. repeat split; [vm_compute; reflexivity..|vm_compute; discriminate]. Qed.

(** The guard of line 99 never blocks: whatever the flags hold when a rerun
    starts, a file in the uploader is written to a new temp file and, with an
    agent, analysed; the log and the store grow as if the flags were unset. *)
Lemma upload_block_ignores_flags env i agent s b o :
  log (upload_block env i agent (set_image_analyzed b (set_ss_image_analyzed o s))).2
    = log (upload_block env i agent s).2
  ∧ msgs (upload_block env i agent (set_image_analyzed b (set_ss_image_analyzed o s))).2
    = msgs (upload_block env i agent s).2.
Proof.
  rewrite !upload_block_run. unfold upload_state.
  by destruct (uploaded_file i), agent.
Qed.

(** C2: the first rerun sets the flag [image_analyzed], in the script and in
    the session state; the next rerun, with the same file in the uploader and
    no new upload, calls the vision service again and stores a second pair of
    turns for the same image. *)
Theorem retained_file_is_analyzed_again :
  ss_image_analyzed (rerun env_clear (initial_state ∅) upload_only) = Some true
  ∧ image_analyzed (rerun env_clear (initial_state ∅) upload_only) = true
  ∧ List.filter is_analyze (log (rerun env_clear (initial_state ∅) upload_only))
    = [EvAnalyze "/tmp/tmpa1b2c3d4.jpg"]
  ∧ List.filter is_analyze
      (log (session env_clear (initial_state ∅) [upload_only; same_file_again]))
    = [EvAnalyze "/tmp/tmpa1b2c3d4.jpg"; EvAnalyze "/tmp/tmpe5f6g7h8.jpg"]
  ∧ msgs (session env_clear (initial_state ∅) [upload_only; same_file_again])
    = [mkMessage user "Image uploaded" (Some (Some car_png));
       mkMessage assistant clear_text (Some None);
       mkMessage user "Image uploaded" (Some (Some car_png));
       mkMessage assistant clear_text (Some None)].
Proof. repeat split; vm_compute; reflexivity. Qed.

(** C3: an upload that no text submission accompanies leaves its temp file
    on disk: nothing is unlinked in that rerun, whether the analysis
    succeeds or the service fails, and a later rerun does not remove it
    either. *)
Theorem upload_without_text_leaks_temp_file :
  fs (rerun env_clear (initial_state ∅) upload_only) !! "/tmp/tmpa1b2c3d4.jpg"
    = Some "PNG"
  ∧ List.filter is_unlink (log (rerun env_clear (initial_state ∅) upload_only)) = []
  ∧ fs (rerun env_down (initial_state ∅) upload_only) !! "/tmp/tmpa1b2c3d4.jpg"
    = Some "PNG"
  ∧ fs (session env_clear (initial_state ∅) [upload_only; ask_without_file])
      !! "/tmp/tmpa1b2c3d4.jpg" = Some "PNG"
  ∧ List.filter is_unlink
      (log (session env_clear (initial_state ∅) [upload_only; ask_without_file])) = [].
Proof. repeat split; vm_compute; reflexivity. Qed.

(** C4: a question asked while the uploader holds the file gets the analysis
    in its context once; a second, later question with no new upload gets the
    analysis of the same image in its context again. *)
Theorem later_question_repeats_analysis :
  List.filter is_agent_run
    (log (session env_clear (initial_state ∅) [ask_about_image; ask_again]))
  = [EvAgentRun
       (agent_prompt
          ("The user has uploaded an image. Image analysis: " +:+ clear_text
           +:+ ". User query: What is on the plate?"));
     EvAgentRun
       (agent_prompt
          ("The user has uploaded an image. Image analysis: " +:+ clear_text
           +:+ ". User query: What is BillEase?"))].
Proof. vm_compute. reflexivity. Qed.

(** A failed construction of the agent is not remembered.  In the first
    rerun [create_agent()] raises and the question gets the apology; in the
    second it succeeds, and the question of that later rerun is sent to
    [agent.run] and answered by the agent. *)
Lemma construction_failure_is_not_remembered :
  create_agent ask_no_agent = Raise "401 Unauthorized"
  ∧ msgs (rerun env_clear (initial_state ∅) ask_no_agent)
    = [mkMessage user "What is BillEase?" None;
       mkMessage assistant
         "Sorry, I'm having trouble initializing. Please try again later."
         (Some None)]
  ∧ List.filter is_agent_run
      (log (session env_clear (initial_state ∅) [ask_no_agent; ask_without_file]))
    = [EvAgentRun (agent_prompt "What is BillEase?")]
  ∧ last (msgs (session env_clear (initial_state ∅) [ask_no_agent; ask_without_file]))
    = Some (mkMessage assistant "BillEase is a buy now, pay later app." (Some None))
  ∧ last (msgs (session env_clear (initial_state ∅) [ask_no_agent; ask_without_file]))
    ≠ Some (mkMessage assistant
              "Sorry, I'm having trouble initializing. Please try again later."
              (Some None)).
Proof. repeat split; [vm_compute; reflexivity..|vm_compute; discriminate]. Qed.

(** ** The claims at work on the scenarios *)

(** A blurry picture: the stored assistant turn is the sentinel. *)
Lemma sentinel_turn_is_verbatim_witness :
  uploaded_file upload_only = Some car_png
  ∧ create_agent upload_only = Ret CodeAgent
  ∧ vision env_blurry (count is_analyze (log (initial_state ∅)))
      (tmp_name (tmp_rand upload_only) ".jpg") = Ret "Please upload a clearer image"
  ∧ ∃ rest,
      msgs (rerun env_blurry (initial_state ∅) upload_only) =
        msgs (initial_state ∅)
        ++ [mkMessage user "Image uploaded" (Some (Some car_png));
            mkMessage assistant "Please upload a clearer image" (Some None)]
        ++ rest
      ∧ (prompt upload_only = None → rest = []).
Proof.
  split; [reflexivity|]. split; [reflexivity|]. split; [reflexivity|].
  apply (sentinel_turn_is_verbatim env_blurry (initial_state ∅) upload_only
           car_png CodeAgent); reflexivity.
Defined.

(** A question about an image in a rerun whose agent cannot be built. *)
Lemma construction_failure_apology_witness :
  create_agent ask_image_no_agent = Raise "401 Unauthorized"
  ∧ prompt ask_image_no_agent = Some "What is on the plate?"
  ∧ "What is on the plate?" ≠ ""
  ∧ (msgs (rerun env_clear (initial_state ∅) ask_image_no_agent) =
       msgs (initial_state ∅)
       ++ [mkMessage user "What is on the plate?"
             (match uploaded_file ask_image_no_agent with
              | Some f => Some (Some f)
              | None => None
              end);
           mkMessage assistant
             "Sorry, I'm having trouble initializing. Please try again later."
             (Some None)]
     ∧ List.filter is_agent_run
         (log (rerun env_clear (initial_state ∅) ask_image_no_agent))
       = List.filter is_agent_run (log (initial_state ∅))).
Proof.
  split; [reflexivity|]. split; [reflexivity|]. split; [discriminate|].
  apply (construction_failure_apology env_clear (initial_state ∅)
           ask_image_no_agent "401 Unauthorized" "What is on the plate?");
    [reflexivity | reflexivity | discriminate].
Defined.

(** The agent times out on a question. *)
Lemma agent_failure_is_a_turn_witness :
  create_agent ask_without_file = Ret CodeAgent
  ∧ prompt ask_without_file = Some "What is BillEase?"
  ∧ "What is BillEase?" ≠ ""
  ∧ (∀ q, agent_run env_timeout (count is_agent_run (log (initial_state ∅))) q
          = Raise "timeout")
  ∧ ((script env_timeout ask_without_file (initial_state ∅)).1 = Ret tt
     ∧ ∃ earlier,
         msgs (rerun env_timeout (initial_state ∅) ask_without_file) =
           msgs (initial_state ∅) ++ earlier
           ++ [mkMessage user "What is BillEase?"
                 (match uploaded_file ask_without_file with
                  | Some f => Some (Some f)
                  | None => None
                  end);
               mkMessage assistant ("Sorry, I encountered an error: " +:+ "timeout")
                 (Some None)]).
Proof.
  split; [reflexivity|]. split; [reflexivity|]. split; [discriminate|].
  split; [intros q; reflexivity|].
  apply (agent_failure_is_a_turn env_timeout (initial_state ∅) ask_without_file
           CodeAgent "What is BillEase?" "timeout");
    [reflexivity | reflexivity | discriminate | intros q; reflexivity].
Defined.

(** The text block reached with a temp file on disk while the agent times
    out. *)
Lemma text_block_cleanup_witness :
  truthy (prompt ask_about_image) = true
  ∧ image_path at_text_block = Some "/tmp/tmpa1b2c3d4.jpg"
  ∧ "/tmp/tmpa1b2c3d4.jpg" ≠ ""
  ∧ ((text_block env_timeout ask_about_image (Some CodeAgent) at_text_block).1 = Ret tt
     ∧ (is_Some (fs at_text_block !! "/tmp/tmpa1b2c3d4.jpg") →
          fs (text_block env_timeout ask_about_image (Some CodeAgent) at_text_block).2
            = delete "/tmp/tmpa1b2c3d4.jpg" (fs at_text_block)
          ∧ image_path
              (text_block env_timeout ask_about_image (Some CodeAgent) at_text_block).2
            = None
          ∧ List.filter is_unlink
              (log (text_block env_timeout ask_about_image (Some CodeAgent)
                      at_text_block).2)
            = List.filter is_unlink (log at_text_block)
              ++ [EvUnlink "/tmp/tmpa1b2c3d4.jpg"])
     ∧ (fs at_text_block !! "/tmp/tmpa1b2c3d4.jpg" = None →
          fs (text_block env_timeout ask_about_image (Some CodeAgent) at_text_block).2
            = fs at_text_block
          ∧ List.filter is_unlink
              (log (text_block env_timeout ask_about_image (Some CodeAgent)
                      at_text_block).2)
            = List.filter is_unlink (log at_text_block))).
Proof.
  split; [reflexivity|]. split; [reflexivity|]. split; [discriminate|].
  apply (text_block_cleanup env_timeout ask_about_image (Some CodeAgent)
           at_text_block "/tmp/tmpa1b2c3d4.jpg");
    [reflexivity | reflexivity | discriminate].
Defined.

(** * Further properties of the script *)

(** ** The conversation store *)

Lemma turn_pairs_app l1 l2 :
  turn_pairs l1 = true → turn_pairs l2 = true → turn_pairs (l1 ++ l2) = true.
Proof.
  revert l1. fix IH 1. intros [|u [|a rest]]; cbn; try done.
  intros H1 H2. apply andb_true_iff in H1 as [H1 Hrest].
  rewrite H1. cbn. by apply IH.
Qed.

Lemma turn_pairs_rerun env s i :
  turn_pairs (upload_turns env i s ++ text_turns env i s) = true.
Proof.
  apply turn_pairs_app.
  - unfold upload_turns.
    by destruct (uploaded_file i), (agent_of (create_agent i)).
  - unfold text_turns. by destruct (truthy (prompt i)).
Qed.

(** X1: a session only ever appends to the conversation store, and what it
    appends is a sequence of pairs, a user turn followed by an assistant
    turn. *)
Theorem session_appends_turn_pairs env runs : ∀ s,
  ∃ new, msgs (session env s runs) = msgs s ++ new ∧ turn_pairs new = true.
Proof.
  induction runs as [|i runs IH]; intros s.
  - exists []. by rewrite app_nil_r.
  - cbn [session foldl]. fold (session env (rerun env s i) runs).
    destruct (IH (rerun env s i)) as (new & Hnew & Hpairs).
    exists ((upload_turns env i s ++ text_turns env i s) ++ new). split.
    + by rewrite Hnew, msgs_rerun, <- !app_assoc.
    + apply turn_pairs_app; [apply turn_pairs_rerun | done].
Qed.

(** ** The file system *)

(** X2: what a rerun does to the files depends on the uploader and the chat
    input alone.  With no file in the uploader nothing changes; with a file
    and a text submission the temp path is absent afterwards; with a file and
    no text submission the temp path holds the uploaded bytes.  No other path
    is touched. *)
Theorem rerun_file_system env s i :
  fs (rerun env s i) =
    match uploaded_file i with
    | None => fs s
    | Some f =>
        if truthy (prompt i)
        then delete (tmp_name (tmp_rand i) ".jpg") (fs s)
        else <[tmp_name (tmp_rand i) ".jpg" := uf_value f]> (fs s)
    end.
Proof. apply fs_rerun. Qed.

(** X3: a rerun calls [os.unlink] at most once, only on the temp file it
    created itself, and exactly when the uploader holds a file and a text is
    submitted. *)
Theorem rerun_unlinks_own_temp_file env s i :
  List.filter is_unlink (log (rerun env s i))
  = List.filter is_unlink (log s)
    ++ (if is_some (uploaded_file i) && truthy (prompt i)
        then [EvUnlink (tmp_name (tmp_rand i) ".jpg")] else []).
Proof. apply unlinks_rerun. Qed.

Lemma count_filter k (l : list Event) : count k l = length (List.filter k l).
Proof. done. Qed.

Lemma temp_files_rerun env s i :
  count is_mktemp (log (rerun env s i))
  = count is_mktemp (log s) + (if is_some (uploaded_file i) then 1 else 0)
  ∧ count is_unlink (log (rerun env s i))
    = count is_unlink (log s)
      + (if is_some (uploaded_file i) && truthy (prompt i) then 1 else 0).
Proof.
  rewrite !count_filter, mktemps_rerun, unlinks_rerun, !length_app.
  by destruct (is_some (uploaded_file i)), (truthy (prompt i)).
Qed.

Lemma session_temp_file_counts env runs : ∀ s,
  count is_mktemp (log (session env s runs))
  = count is_mktemp (log s)
    + length (List.filter (λ i, is_some (uploaded_file i)) runs)
  ∧ count is_unlink (log (session env s runs))
    = count is_unlink (log s)
      + length (List.filter (λ i, is_some (uploaded_file i) && truthy (prompt i)) runs).
Proof.
  induction runs as [|i runs IH]; intros s.
  - cbn. lia.
  - cbn [session foldl]. fold (session env (rerun env s i) runs).
    destruct (IH (rerun env s i)) as [-> ->].
    destruct (temp_files_rerun env s i) as [-> ->].
    cbn [List.filter].
    destruct (is_some (uploaded_file i)), (truthy (prompt i)); cbn; lia.
Qed.

Lemma tmp_path_in_files (runs : list Inputs) j :
  j ∈ runs → is_some (uploaded_file j) = true →
  tmp_path j ∈ map tmp_path (List.filter (λ i, is_some (uploaded_file i)) runs).
Proof.
  intros Hj Hf. apply list_elem_of_In. apply in_map. apply filter_In.
  split; [by apply list_elem_of_In | done].
Qed.

Lemma left_behind_from runs p x :
  (p, x) ∈ left_behind runs →
  ∃ j, j ∈ runs ∧ is_some (uploaded_file j) = true ∧ p = tmp_path j.
Proof.
  induction runs as [|i runs IH]; cbn [left_behind]; [by intros ?%elem_of_nil|].
  destruct (uploaded_file i) as [f|] eqn:Hf.
  - destruct (truthy (prompt i)).
    + intros (j & Hj & H)%IH. exists j. split; [by right|done].
    + intros [[= -> ->]|(j & Hj & H)%IH]%elem_of_cons.
      * exists i. split; [by left|]. by rewrite Hf.
      * exists j. split; [by right|done].
  - intros (j & Hj & H)%IH. exists j. split; [by right|done].
Qed.

Lemma left_behind_paths runs p :
  p ∈ (left_behind runs).*1 →
  p ∈ map tmp_path (List.filter (λ i, is_some (uploaded_file i)) runs).
Proof.
  intros ([q x] & -> & Hin)%list_elem_of_fmap. cbn.
  apply left_behind_from in Hin as (j & Hj & Hf & ->).
  by apply tmp_path_in_files.
Qed.

Lemma left_behind_NoDup runs :
  NoDup (map tmp_path (List.filter (λ i, is_some (uploaded_file i)) runs)) →
  NoDup (left_behind runs).*1.
Proof.
  induction runs as [|i runs IH]; cbn [left_behind List.filter]; [constructor|].
  destruct (uploaded_file i) as [f|]; cbn [is_some map]; [|done].
  intros [Hi Hrest]%NoDup_cons.
  destruct (truthy (prompt i)); [by apply IH|].
  cbn [fmap list_fmap fst]. apply NoDup_cons. split; [|by apply IH].
  intros H. by apply Hi, left_behind_paths.
Qed.

Lemma left_behind_length runs :
  length (left_behind runs)
  + length (List.filter (λ i, is_some (uploaded_file i) && truthy (prompt i)) runs)
  = length (List.filter (λ i, is_some (uploaded_file i)) runs).
Proof.
  induction runs as [|i runs IH]; [done|].
  cbn [left_behind List.filter].
  destruct (uploaded_file i), (truthy (prompt i)); cbn [is_some andb length];
    lia.
Qed.

Lemma session_files env runs : ∀ s,
  NoDup (map tmp_path (List.filter (λ i, is_some (uploaded_file i)) runs)) →
  Forall (λ i, is_some (uploaded_file i) = true → fs s !! tmp_path i = None) runs →
  fs (session env s runs) = list_to_map (left_behind runs) ∪ fs s.
Proof.
  induction runs as [|i runs IH]; intros s Hnd Hfresh.
  - cbn. by rewrite (left_id_L ∅ (∪)).
  - cbn [session foldl]. fold (session env (rerun env s i) runs).
    apply Forall_cons in Hfresh as [Hi Hfresh].
    pose proof (fs_rerun env i s) as Hfs. unfold rerun_files in Hfs.
    cbn [List.filter left_behind] in *.
    destruct (uploaded_file i) as [f|]; cbn [is_some map] in *.
    + apply NoDup_cons in Hnd as [Hni Hnd]. specialize (Hi eq_refl).
      destruct (truthy (prompt i)).
      * rewrite (delete_id _ _ Hi) in Hfs. rewrite IH; [|done|by rewrite Hfs].
        by rewrite Hfs.
      * rewrite IH; [|done|]; cycle 1.
        { rewrite Hfs. rewrite Forall_forall in Hfresh |- *.
          intros j Hj Hf. rewrite lookup_insert_ne; [by apply Hfresh|].
          intros Heq. apply Hni. rewrite Heq. by apply tmp_path_in_files. }
        rewrite Hfs. cbn [list_to_map foldr].
        rewrite <- insert_union_l, <- insert_union_r; [done|].
        apply not_elem_of_list_to_map_1. intros H. by apply Hni, left_behind_paths.
    + rewrite IH; [|done|by rewrite Hfs]. by rewrite Hfs.
Qed.

Lemma session_files_size env runs s :
  NoDup (map tmp_path (List.filter (λ i, is_some (uploaded_file i)) runs)) →
  Forall (λ i, is_some (uploaded_file i) = true → fs s !! tmp_path i = None) runs →
  size (fs (session env s runs)) = length (left_behind runs) + size (fs s).
Proof.
  intros Hnd Hfresh. rewrite session_files by done.
  rewrite map_size_disj_union.
  - by rewrite map_size_list_to_map by (by apply left_behind_NoDup).
  - apply map_disjoint_spec. intros p x y Hx Hy.
    apply elem_of_list_to_map_2 in Hx.
    apply left_behind_from in Hx as (j & Hj & Hf & ->).
    rewrite Forall_forall in Hfresh. by rewrite (Hfresh j Hj Hf) in Hy.
Qed.

(** X4: the temp files of a session.  One is created for each rerun in which
    the uploader holds a file, and one is removed for each of those reruns
    that also submits a text.  When the names of the session are distinct and
    not on disk at its start, as the names [NamedTemporaryFile] picks are,
    the files at its end are the files at its start together with the temp
    files of the uploads that no text accompanied, so that the number of
    files grew by the number created less the number removed. *)
Theorem session_temp_file_accounting env runs s :
  NoDup (map tmp_path (List.filter (λ i, is_some (uploaded_file i)) runs)) →
  Forall (λ i, is_some (uploaded_file i) = true → fs s !! tmp_path i = None) runs →
  count is_mktemp (log (session env s runs))
  = count is_mktemp (log s)
    + length (List.filter (λ i, is_some (uploaded_file i)) runs)
  ∧ count is_unlink (log (session env s runs))
    = count is_unlink (log s)
      + length (List.filter (λ i, is_some (uploaded_file i) && truthy (prompt i)) runs)
  ∧ fs (session env s runs) = list_to_map (left_behind runs) ∪ fs s
  ∧ size (fs (session env s runs))
    + length (List.filter (λ i, is_some (uploaded_file i) && truthy (prompt i)) runs)
    = size (fs s) + length (List.filter (λ i, is_some (uploaded_file i)) runs).
Proof.
  intros Hnd Hfresh.
  destruct (session_temp_file_counts env runs s) as [Hc Hr].
  repeat split; [done | done | by apply session_files |].
  rewrite session_files_size by done.
  pose proof (left_behind_length runs). lia.
Qed.

(** ** The calls to the remote services *)


(** X6: a text submission with an agent calls [agent.run] exactly once.  With
    no file in the uploader the context is the typed text unchanged; with a
    file it is the sentence built on line 148, around the analysis of line
    111 or, when that one is empty, around the analysis of line 150. *)
Theorem text_submission_prompt env s i a q :
  create_agent i = Ret a → prompt i = Some q → q ≠ "" →
  List.filter is_agent_run (log (rerun env s i))
  = List.filter is_agent_run (log s)
    ++ [EvAgentRun
          (agent_prompt
             match uploaded_file i with
             | None => q
             | Some _ =>
                 let p := tmp_name (tmp_rand i) ".jpg" in
                 let k := count is_analyze (log s) in
                 let first := analysis_text (vision env k p) in
                 "The user has uploaded an image. Image analysis: "
                 +:+ (if bool_decide (first = "")
                      then analysis_text (vision env (S k) p) else first)
                 +:+ ". User query: " +:+ q
             end)].
Proof.
  intros Ha Hq Hne. rewrite agent_calls_rerun.
  rewrite (truthy_prompt i q Hq Hne), Ha. cbn [agent_of is_some andb].
  unfold rerun_context. rewrite Hq. by destruct (uploaded_file i).
Qed.

(** X7: a rerun without a text submission (no chat input, or the empty
    string) never calls [agent.run]. *)
Theorem no_text_no_agent_call env s i :
  truthy (prompt i) = false →
  List.filter is_agent_run (log (rerun env s i))
  = List.filter is_agent_run (log s).
Proof. intros Hp. by rewrite agent_calls_rerun, Hp, app_nil_r. Qed.

(** X8: [st.error] is called for a failed construction of the agent and for
    nothing else: the [except] clause of lines 124-125 never runs, because
    [analyze_image] turns every failure into a string. *)
Theorem st_error_only_for_agent env s i :
  List.filter is_error (log (rerun env s i))
  = List.filter is_error (log s)
    ++ match create_agent i with
       | Ret _ => []
       | Raise e => [EvError ("Error creating agent: " +:+ e)]
       end.
Proof. apply errors_rerun. Qed.

(** X9: when the vision service fails during an upload, the failure is kept
    as an ordinary assistant turn with the text "Error analyzing image: "
    followed by the message, and the image still counts as analysed in the
    session state. *)
Theorem analysis_failure_is_stored env s i f a e :
  uploaded_file i = Some f → create_agent i = Ret a →
  vision env (count is_analyze (log s)) (tmp_name (tmp_rand i) ".jpg") = Raise e →
  (∃ rest,
     msgs (rerun env s i) =
       msgs s
       ++ [mkMessage user "Image uploaded" (Some (Some f));
           mkMessage assistant ("Error analyzing image: " +:+ e) (Some None)]
       ++ rest)
  ∧ ss_image_analyzed (rerun env s i) = Some true.
Proof.
  intros Hf Ha Hv. split.
  - exists (text_turns env i s).
    rewrite (upload_appends_analysis env s i f a Hf Ha). by rewrite Hv.
  - rewrite rerun_eq. unfold sync_state.
    destruct (flags_text_done env i s) as [Hss _].
    unfold analyses in Hss. rewrite Hf, Ha in Hss. cbn in Hss.
    by rewrite Hss.
Qed.

(** ** The flags *)

(** X10: the flag of the session state latches.  After a rerun it is present,
    it is true when this rerun analysed an image or when it was true before,
    and the script's variable [image_analyzed] ends with the same value. *)
Theorem session_flag_latches env s i :
  ss_image_analyzed (rerun env s i)
  = Some (is_some (uploaded_file i) && is_some (agent_of (create_agent i))
          || default false (ss_image_analyzed s))
  ∧ image_analyzed (rerun env s i)
    = is_some (uploaded_file i) && is_some (agent_of (create_agent i))
      || default false (ss_image_analyzed s).
Proof.
  rewrite rerun_eq. unfold sync_state.
  destruct (flags_text_done env i s) as [Hss Hia]. unfold analyses in *.
  rewrite Hss.
  destruct (is_some (uploaded_file i) && is_some (agent_of (create_agent i)));
    [done|].
  destruct (ss_image_analyzed s) as [b|]; simpl_state; [done|].
  by rewrite Hia.
Qed.

(** ** What is shown and what is stored *)

(** X11: in the text path the reply that is displayed last is the text of
    the assistant turn that is stored last. *)
Theorem text_reply_shown_is_stored env s i :
  truthy (prompt i) = true →
  ∃ r, last (log (rerun env s i)) = Some (EvMarkdown r)
       ∧ last (msgs (rerun env s i)) = Some (mkMessage assistant r (Some None)).
Proof.
  intros Hp. exists (rerun_reply env i s). split.
  - rewrite log_rerun. unfold rerun_events, text_events. rewrite Hp.
    by rewrite !app_assoc, last_snoc.
  - rewrite msgs_rerun. unfold text_turns. rewrite Hp, reply_rerun.
    rewrite (app_assoc (msgs s)).
    change [?u; ?a] with ([u] ++ [a]). by rewrite !app_assoc, last_snoc.
Qed.

(** ** [encode_image_to_base64] *)

Lemma encode_image_to_base64_run b64encode p s :
  encode_image_to_base64 b64encode p s
  = (Ret match fs s !! p with
         | Some d => b64encode d
         | None =>
             "[Image could not be encoded: "
             +:+ ("[Errno 2] No such file or directory: '" +:+ p +:+ "'") +:+ "]"
         end,
     s).
Proof.
  unfold encode_image_to_base64, try_except, read_file, mbind, M_bind.
  by destruct (fs s !! p).
Qed.


(** X13: the temp file of an upload can be encoded after a rerun without a
    text submission, and gives the encoding of the uploaded bytes; after a
    rerun with a text submission the file is gone and the encoder answers
    with its error message. *)
Theorem encode_after_rerun b64encode env s i f :
  uploaded_file i = Some f →
  (encode_image_to_base64 b64encode (tmp_name (tmp_rand i) ".jpg")
     (rerun env s i)).1
  = Ret (if truthy (prompt i)
         then "[Image could not be encoded: "
              +:+ ("[Errno 2] No such file or directory: '"
                   +:+ tmp_name (tmp_rand i) ".jpg" +:+ "'")
              +:+ "]"
         else b64encode (uf_value f)).
Proof.
  intros Hf. rewrite encode_image_to_base64_run, fs_rerun.
  unfold rerun_files, tmp_path. rewrite Hf.
  cbn [fst]. destruct (truthy (prompt i)).
  - by rewrite lookup_delete_eq.
  - by rewrite lookup_insert_eq.
Qed.

(** ** Uploads *)

(** X14: the trace of a rerun in which a file is uploaded, the agent exists
    and no text is submitted.  After the stored turns are drawn again, the
    script creates the temp file, previews the image, calls the vision
    service once and shows its answer: bare when it is the sentinel, behind
    the prefix "I've analyzed the uploaded image:" otherwise. *)
Theorem upload_only_trace env s i f a :
  uploaded_file i = Some f → create_agent i = Ret a → truthy (prompt i) = false →
  log (rerun env s i) =
    log s ++ render_log (msgs s)
    ++ let p := tmp_name (tmp_rand i) ".jpg" in
       let t := analysis_text (vision env (count is_analyze (log s)) p) in
       [EvMkTemp p; EvImage f; EvAnalyze p; EvChat assistant;
        EvMarkdown (if bool_decide (t = "Please upload a clearer image")
                    then t
                    else "I've analyzed the uploaded image:" +:+ nl +:+ nl +:+ t)].
Proof.
  intros Hf Ha Hp. rewrite log_rerun.
  unfold rerun_events, upload_events, text_events.
  rewrite Hf, Ha, Hp. cbn [agent_error_log agent_of app].
  by rewrite ?app_nil_r.
Qed.

(** X15: when the agent could not be constructed, an uploaded image is
    written to its temp file but is never analysed and adds no turn to the
    conversation store. *)
Theorem upload_ignored_without_agent env s i f e :
  uploaded_file i = Some f → create_agent i = Raise e → truthy (prompt i) = false →
  msgs (rerun env s i) = msgs s
  ∧ List.filter is_analyze (log (rerun env s i)) = List.filter is_analyze (log s)
  ∧ fs (rerun env s i) !! tmp_name (tmp_rand i) ".jpg" = Some (uf_value f).
Proof.
  intros Hf He Hp. split; [|split].
  - rewrite msgs_rerun. unfold upload_turns, text_turns.
    by rewrite Hf, He, Hp, !app_nil_r.
  - rewrite analyzes_rerun. unfold analyses.
    by rewrite Hf, He, app_nil_r.
  - rewrite fs_rerun. unfold rerun_files, tmp_path.
    by rewrite Hf, Hp, lookup_insert_eq.
Qed.

(** ** The chat bubbles *)

Lemma chats_render_log l :
  List.filter is_chat (render_log l) = map (λ m, EvChat (role m)) l.
Proof.
  induction l as [|m l IH]; [done|].
  unfold render_log. cbn [map concat]. rewrite List.filter_app.
  fold (render_log l). rewrite IH.
  unfold render_events. by destruct (image m) as [[f|]|].
Qed.

(** X16: the chat bubbles of a rerun, in order: one for every turn stored
    before the rerun, then an assistant bubble for the analysis of an upload,
    then the user's text and the reply.  The user turn "Image uploaded" is
    stored by the upload block but gets no bubble in the rerun that stores
    it. *)
Theorem rerun_chat_bubbles env s i :
  List.filter is_chat (log (rerun env s i))
  = List.filter is_chat (log s)
    ++ map (λ m, EvChat (role m)) (msgs s)
    ++ match uploaded_file i, create_agent i with
       | Some _, Ret _ => [EvChat assistant]
       | _, _ => []
       end
    ++ (if truthy (prompt i) then [EvChat user; EvChat assistant] else []).
Proof.
  rewrite log_rerun. unfold rerun_events.
  rewrite !List.filter_app, chats_render_log.
  replace (List.filter is_chat (agent_error_log (create_agent i))) with (@nil Event)
    by (by destruct (create_agent i)).
  cbn [app]. do 2 f_equal.
  unfold upload_events, text_events, respond_events, image_event.
  destruct (create_agent i), (uploaded_file i), (truthy (prompt i));
    cbn; try done; by destruct (reanalyses env i s).
Qed.

(** ** The further properties at work on the scenarios *)

(** The agent is asked about the picture. *)
Lemma text_submission_prompt_witness :
  create_agent ask_about_image = Ret CodeAgent
  ∧ prompt ask_about_image = Some "What is on the plate?"
  ∧ "What is on the plate?" ≠ ""
  ∧ List.filter is_agent_run (log (rerun env_clear (initial_state ∅) ask_about_image))
    = List.filter is_agent_run (log (initial_state ∅))
      ++ [EvAgentRun
            (agent_prompt
               match uploaded_file ask_about_image with
               | None => "What is on the plate?"
               | Some _ =>
                   let p := tmp_name (tmp_rand ask_about_image) ".jpg" in
                   let k := count is_analyze (log (initial_state ∅)) in
                   let first := analysis_text (vision env_clear k p) in
                   "The user has uploaded an image. Image analysis: "
                   +:+ (if bool_decide (first = "")
                        then analysis_text (vision env_clear (S k) p) else first)
                   +:+ ". User query: " +:+ "What is on the plate?"
               end)].
Proof.
  split; [reflexivity|]. split; [reflexivity|]. split; [discriminate|].
  apply (text_submission_prompt env_clear (initial_state ∅) ask_about_image
           CodeAgent "What is on the plate?");
    [reflexivity | reflexivity | discriminate].
Defined.

(** An empty chat input is no submission. *)
Lemma no_text_no_agent_call_witness :
  truthy (prompt upload_empty_prompt) = false
  ∧ List.filter is_agent_run (log (rerun env_clear (initial_state ∅) upload_empty_prompt))
    = List.filter is_agent_run (log (initial_state ∅)).
Proof.
  split; [reflexivity|].
  apply (no_text_no_agent_call env_clear (initial_state ∅) upload_empty_prompt).
  reflexivity.
Defined.

(** The vision service is down during an upload. *)
Lemma analysis_failure_is_stored_witness :
  uploaded_file upload_only = Some car_png
  ∧ create_agent upload_only = Ret CodeAgent
  ∧ vision env_down (count is_analyze (log (initial_state ∅)))
      (tmp_name (tmp_rand upload_only) ".jpg") = Raise "connection refused"
  ∧ ((∃ rest,
        msgs (rerun env_down (initial_state ∅) upload_only) =
          msgs (initial_state ∅)
          ++ [mkMessage user "Image uploaded" (Some (Some car_png));
              mkMessage assistant ("Error analyzing image: " +:+ "connection refused")
                (Some None)]
          ++ rest)
     ∧ ss_image_analyzed (rerun env_down (initial_state ∅) upload_only) = Some true).
Proof.
  split; [reflexivity|]. split; [reflexivity|]. split; [reflexivity|].
  apply (analysis_failure_is_stored env_down (initial_state ∅) upload_only
           car_png CodeAgent "connection refused"); reflexivity.
Defined.

(** A question whose reply is the agent's time-out message. *)
Lemma text_reply_shown_is_stored_witness :
  truthy (prompt ask_without_file) = true
  ∧ ∃ r, last (log (rerun env_timeout (initial_state ∅) ask_without_file))
         = Some (EvMarkdown r)
         ∧ last (msgs (rerun env_timeout (initial_state ∅) ask_without_file))
           = Some (mkMessage assistant r (Some None)).
Proof.
  split; [reflexivity|].
  apply (text_reply_shown_is_stored env_timeout (initial_state ∅) ask_without_file).
  reflexivity.
Defined.

(** Encoding the temp file of an upload that no text accompanies. *)
Lemma encode_after_rerun_witness :
  uploaded_file upload_only = Some car_png
  ∧ (encode_image_to_base64 b64_png (tmp_name (tmp_rand upload_only) ".jpg")
       (rerun env_clear (initial_state ∅) upload_only)).1
    = Ret (if truthy (prompt upload_only)
           then "[Image could not be encoded: "
                +:+ ("[Errno 2] No such file or directory: '"
                     +:+ tmp_name (tmp_rand upload_only) ".jpg" +:+ "'")
                +:+ "]"
           else b64_png (uf_value car_png)).
Proof.
  split; [reflexivity|].
  apply (encode_after_rerun b64_png env_clear (initial_state ∅) upload_only car_png).
  reflexivity.
Defined.

(** The blurry picture, uploaded alone. *)
Lemma upload_only_trace_witness :
  uploaded_file upload_only = Some car_png
  ∧ create_agent upload_only = Ret CodeAgent
  ∧ truthy (prompt upload_only) = false
  ∧ log (rerun env_blurry (initial_state ∅) upload_only) =
      log (initial_state ∅) ++ render_log (msgs (initial_state ∅))
      ++ let p := tmp_name (tmp_rand upload_only) ".jpg" in
         let t := analysis_text
                    (vision env_blurry (count is_analyze (log (initial_state ∅))) p) in
         [EvMkTemp p; EvImage car_png; EvAnalyze p; EvChat assistant;
          EvMarkdown (if bool_decide (t = "Please upload a clearer image")
                      then t
                      else "I've analyzed the uploaded image:" +:+ nl +:+ nl +:+ t)].
Proof.
  split; [reflexivity|]. split; [reflexivity|]. split; [reflexivity|].
  apply (upload_only_trace env_blurry (initial_state ∅) upload_only car_png CodeAgent);
    reflexivity.
Defined.

(** An upload in a session whose agent cannot be built. *)
Lemma upload_ignored_without_agent_witness :
  uploaded_file upload_no_agent = Some car_png
  ∧ create_agent upload_no_agent = Raise "401 Unauthorized"
  ∧ truthy (prompt upload_no_agent) = false
  ∧ (msgs (rerun env_clear (initial_state ∅) upload_no_agent) = msgs (initial_state ∅)
     ∧ List.filter is_analyze (log (rerun env_clear (initial_state ∅) upload_no_agent))
       = List.filter is_analyze (log (initial_state ∅))
     ∧ fs (rerun env_clear (initial_state ∅) upload_no_agent)
         !! tmp_name (tmp_rand upload_no_agent) ".jpg" = Some (uf_value car_png)).
Proof.
  split; [reflexivity|]. split; [reflexivity|]. split; [reflexivity|].
  apply (upload_ignored_without_agent env_clear (initial_state ∅) upload_no_agent
           car_png "401 Unauthorized"); reflexivity.
Defined.

(** An upload left alone, a question about a second upload, and a question
    with an empty uploader. *)
Lemma session_temp_file_accounting_witness :
  NoDup (map tmp_path
           (List.filter (λ i, is_some (uploaded_file i))
              [upload_only; ask_again; ask_without_file]))
  ∧ Forall (λ i, is_some (uploaded_file i) = true
                 → fs (initial_state ∅) !! tmp_path i = None)
      [upload_only; ask_again; ask_without_file]
  ∧ (count is_mktemp
       (log (session env_clear (initial_state ∅) [upload_only; ask_again; ask_without_file]))
     = count is_mktemp (log (initial_state ∅))
       + length (List.filter (λ i, is_some (uploaded_file i))
                   [upload_only; ask_again; ask_without_file])
     ∧ count is_unlink
         (log (session env_clear (initial_state ∅) [upload_only; ask_again; ask_without_file]))
       = count is_unlink (log (initial_state ∅))
         + length (List.filter (λ i, is_some (uploaded_file i) && truthy (prompt i))
                     [upload_only; ask_again; ask_without_file])
     ∧ fs (session env_clear (initial_state ∅) [upload_only; ask_again; ask_without_file])
       = list_to_map (left_behind [upload_only; ask_again; ask_without_file])
         ∪ fs (initial_state ∅)
     ∧ size (fs (session env_clear (initial_state ∅)
                   [upload_only; ask_again; ask_without_file]))
       + length (List.filter (λ i, is_some (uploaded_file i) && truthy (prompt i))
                   [upload_only; ask_again; ask_without_file])
       = size (fs (initial_state ∅))
         + length (List.filter (λ i, is_some (uploaded_file i))
                     [upload_only; ask_again; ask_without_file])).
Proof.
  assert (Hnd : NoDup (map tmp_path
                         (List.filter (λ i, is_some (uploaded_file i))
                            [upload_only; ask_again; ask_without_file]))).
  { refine (bool_decide_unpack _ _). vm_compute. exact I. }
  assert (Hfresh : Forall (λ i, is_some (uploaded_file i) = true
                                → fs (initial_state ∅) !! tmp_path i = None)
                     [upload_only; ask_again; ask_without_file]).
  { repeat apply Forall_cons_2; [intros _; reflexivity..|apply Forall_nil_2]. }
  split; [exact Hnd|]. split; [exact Hfresh|].
  exact (session_temp_file_accounting env_clear
           [upload_only; ask_again; ask_without_file] (initial_state ∅) Hnd Hfresh).
Defined.
